(** * zap-desktop: the payment form (Pay) and the wallet dashboard (Wallet)

    A shallow embedding of [app/components/Pay/Pay.js] and
    [app/components/Wallet/Wallet.js].

    - JavaScript values are a small tagged union; numbers are IEEE 754
      binary64, that is Rocq's primitive floats.
    - The component's [this.state] is a record; [this.setState] merges a
      partial record into it.  Every call the component makes to the outside
      (the callback props, the form API, [setState]) is appended to a trace.
    - The utility modules [lib/utils/crypto] and [lib/utils/btc], the form
      library and the string-to-number builtins are not part of these two
      files: they are interfaces (type classes) here. *)

From Stdlib Require Import ZArith String List Bool Lia.
From Stdlib Require Import PrimFloat Uint63.
From stdpp Require Import base option list gmap strings.
Import ListNotations.

Local Open Scope string_scope.
Local Open Scope Z_scope.
Local Open Scope list_scope.

(** ** JavaScript values *)

Inductive value : Type :=
| VUndefined
| VNull
| VBool (b : bool)
| VNum (n : float)
| VStr (s : string).

Module JS.

(** ToBoolean: [undefined], [null], [false], [0], [-0], [NaN] and [''] are
    falsy. *)
Definition truthy (v : value) : bool :=
  match v with
  | VUndefined | VNull => false
  | VBool b => b
  | VNum n => negb (PrimFloat.eqb n 0 || is_nan n)
  | VStr s => negb (String.eqb s "")
  end.

(** [a === b] and [a !== b]. *)
Definition strict_eq (a b : value) : bool :=
  match a, b with
  | VUndefined, VUndefined => true
  | VNull, VNull => true
  | VBool x, VBool y => Bool.eqb x y
  | VNum x, VNum y => PrimFloat.eqb x y
  | VStr x, VStr y => String.eqb x y
  | _, _ => false
  end.

Definition strict_neq (a b : value) : bool := negb (strict_eq a b).

(** [a || b] *)
Definition or (a b : value) : value := if truthy a then a else b.

(** The builtins that turn text into numbers. *)
Class Builtins : Type := {
  StringToNumber : string -> float;
  (** [parseInt(x, 10)] *)
  parseInt10 : value -> float;
  parseFloat : value -> float
}.

Definition ToNumber `{Builtins} (v : value) : float :=
  match v with
  | VUndefined => nan
  | VNull => 0
  | VBool true => 1
  | VBool false => 0
  | VNum n => n
  | VStr s => StringToNumber s
  end.

(** [a <= b]: two strings are compared as strings, anything else as
    numbers, and a comparison with [NaN] is false. *)
Definition le `{Builtins} (a b : value) : bool :=
  match a, b with
  | VStr x, VStr y => String.leb x y
  | _, _ => PrimFloat.leb (ToNumber a) (ToNumber b)
  end.

(** Array indices are small integers: they are computed in [Z] and turned
    into a number where the code compares them with a value. *)
Definition number_of_Z (z : Z) : float :=
  if z <? 0 then PrimFloat.opp (of_uint63 (Uint63.of_Z (- z)))
  else of_uint63 (Uint63.of_Z z).

Fixpoint indexOf_from (l : list value) (x : value) (i : Z) : Z :=
  match l with
  | [] => -1
  | y :: l' => if strict_eq y x then i else indexOf_from l' x (i + 1)
  end.

(** [l.indexOf(x)]: the first index whose element is [=== x], or -1. *)
Definition indexOf (l : list value) (x : value) : Z := indexOf_from l x 0.

(** [l[i]]: [undefined] out of range. *)
Definition get (l : list value) (i : Z) : value :=
  if i <? 0 then VUndefined else default VUndefined (l !! Z.to_nat i).

(** [l.length] *)
Definition length (l : list value) : Z := Z.of_nat (List.length l).

(** [l.length] of an array of any elements *)
Definition length_of {A} (l : list A) : Z := Z.of_nat (List.length l).

End JS.

(** ** lib/utils/crypto and lib/utils/btc *)

Module crypto.

(** What [componentDidUpdate] and [render] read of a decoded invoice. *)
Record Invoice : Type := {
  satoshis : value;
  payeeNodeKey : value
}.

(** [{ min, max }] as returned by [getFeeRange]. *)
Record FeeRange : Type := {
  min : value;
  max : value
}.

Class Utils (Route : Type) : Type := {
  (** [None]: [decodePayReq] throws *)
  decodePayReq : value -> option Invoice;
  (** the argument is the [routes] prop as it is; [None] is a null prop *)
  getMaxFee : option (list Route) -> value;
  getFeeRange : list Route -> FeeRange;
  isOnchain : value -> string -> string -> bool;
  isLn : value -> string -> string -> bool
}.

End crypto.

Module btc.

Class Utils : Type := {
  (** [convert(from, to, amount)] *)
  convert : string -> string -> value -> value;
  satoshisToFiat : float -> value -> value
}.

End btc.

(** [getMinFee] of [lib/utils/crypto], which only [renderSummary] calls. *)
Module fees.

Class Utils (Route : Type) : Type := {
  (** the argument is the [routes] prop as it is *)
  getMinFee : option (list Route) -> value
}.

End fees.

(** ** The form library

    [Pay] drives its form through the [formApi] object handed to [setFormApi]
    and reads the [formState] given to the render prop.  The library is not
    part of the repository: the form is an abstract store with the five
    operations the component calls. *)

Module form.

Record Values : Type := {
  payReq : value;
  amountCrypto : value;
  amountFiat : value
}.

(** [formApi.getState()], and the [formState] of the render prop.  [touched]
    keeps the order of its keys. *)
Record State : Type := {
  values : Values;
  touched : list (string * value);
  pristine : bool;
  invalid : bool
}.

Class Api (Form : Type) : Type := {
  getValue : Form -> string -> value;
  getState : Form -> State;
  reset : Form -> Form;
  setValue : Form -> string -> value -> Form;
  setTouched : Form -> string -> bool -> Form
}.

End form.

(** ** Pay *)

Module Pay.

Module State.

(** [this.state.invoice]: absent at mount, then [null] or a decoded
    invoice. *)
Inductive invoice_value : Type :=
| InvUndefined
| InvNull
| InvObject (i : crypto.Invoice).

Record t : Type := {
  currentStep : value;
  previousStep : value;
  isLn : value;
  isOnchain : value;
  invoice : invoice_value
}.

End State.

(** The partial state object given to [this.setState]: [None] is a key the
    object does not have. *)
Module Update.

Record t : Type := {
  currentStep : option value;
  previousStep : option value;
  isLn : option value;
  isOnchain : option value;
  invoice : option State.invoice_value
}.

End Update.

Module OnchainFees.

Record t : Type := {
  fastestFee : value;
  halfHourFee : value;
  hourFee : value
}.

End OnchainFees.

(** The props the modelled methods read. *)
Module Props.

Record t {Route : Type} : Type := {
  chain : string;
  network : string;
  channelBalance : value;
  cryptoCurrency : string;
  initialPayReq : value;
  isProcessing : bool;
  isQueryingRoutes : bool;
  onchainFees : OnchainFees.t;
  routes : option (list Route);
  walletBalance : value
}.

Arguments t : clear implicits.

End Props.

(** The object given to [sendCoins]. *)
Module SendCoinsParams.

#[local] Abbreviation js := value.

Record t : Type := {
  value : js;
  addr : js;
  currency : string;
  satPerByte : js
}.

End SendCoinsParams.

(** What the component does to the outside, in the order it does it. *)
Inductive effect : Type :=
| setState (u : Update.t)
| sendCoins (params : SendCoinsParams.t)
| payInvoice (payReq feeLimit : value)
| queryRoutes (nodeKey amount : value)
| formApi_reset
| formApi_setValue (field : string) (v : value)
| formApi_setTouched (field : string) (b : bool)
| formApi_submitForm.

Record World {Form : Type} : Type := {
  state : State.t;
  formApi : Form;
  trace : list effect
}.

Arguments World : clear implicits.

(** A method of the component: it reads and updates the world and returns a
    result. *)
Definition Action (Form A : Type) : Type := World Form -> A * World Form.

#[global] Instance Action_ret {Form} : MRet (Action Form) :=
  fun A x w => (x, w).

#[global] Instance Action_bind {Form} : MBind (Action Form) :=
  fun A B f m w => let '(x, w') := m w in f x w'.

Definition getState {Form} : Action Form State.t := fun w => (state w, w).

Definition getForm {Form} : Action Form Form := fun w => (formApi w, w).

(** [this.setState(u)]: the keys of [u] replace those of the state.  The
    update is applied at once: no method calls [setState] twice, and none
    reads [this.state] after it called [setState]. *)
Definition merge (st : State.t) (u : Update.t) : State.t :=
  {| State.currentStep := default (State.currentStep st) (Update.currentStep u);
     State.previousStep := default (State.previousStep st) (Update.previousStep u);
     State.isLn := default (State.isLn st) (Update.isLn u);
     State.isOnchain := default (State.isOnchain st) (Update.isOnchain u);
     State.invoice := default (State.invoice st) (Update.invoice u) |}.

Definition perform {Form} `{form.Api Form} (e : effect) : Action Form unit :=
  fun w =>
    let st :=
      match e with
      | setState u => merge (state w) u
      | _ => state w
      end in
    let f :=
      match e with
      | formApi_reset => form.reset (formApi w)
      | formApi_setValue field v => form.setValue (formApi w) field v
      | formApi_setTouched field b => form.setTouched (formApi w) field b
      | _ => formApi w
      end in
    (tt, {| state := st; formApi := f; trace := trace w ++ [e] |}).

(** [l.forEach(f)] *)
Fixpoint forEach {Form A} (l : list A) (f : A -> Action Form unit)
  : Action Form unit :=
  match l with
  | [] => mret tt
  | x :: l' => f x;; forEach l' f
  end.

(** [state = { currentStep: 'address', previousStep: null, isLn: null,
    isOnchain: null }] *)
Definition initialState : State.t :=
  {| State.currentStep := VStr "address";
     State.previousStep := VNull;
     State.isLn := VNull;
     State.isOnchain := VNull;
     State.invoice := State.InvUndefined |}.

Section Methods.

Context {Route Form : Type}.
Context `{JS.Builtins} `{crypto.Utils Route} `{btc.Utils} `{form.Api Form}.

Implicit Types (props prevProps : Props.t Route) (st prevState : State.t).

(** List of enabled form steps. *)
Definition steps st : list value :=
  if JS.truthy (State.isLn st) then [VStr "address"; VStr "summary"]
  else if JS.truthy (State.isOnchain st) then
    [VStr "address"; VStr "amount"; VStr "summary"]
  else [VStr "address"].

(** Go back to previous form step. *)
Definition previousStep : Action Form unit :=
  st ← getState;
  let currentStep := State.currentStep st in
  let nextStep := Z.max (JS.indexOf (steps st) currentStep - 1) 0 in
  if JS.strict_neq currentStep (VNum (JS.number_of_Z nextStep)) then
    perform (setState
      {| Update.currentStep := Some (JS.get (steps st) nextStep);
         Update.previousStep := Some currentStep;
         Update.isLn := None;
         Update.isOnchain := None;
         Update.invoice := None |})
  else mret tt.

(** Progress to next form step. *)
Definition nextStep : Action Form unit :=
  st ← getState;
  let currentStep := State.currentStep st in
  let nextStep :=
    Z.min (JS.indexOf (steps st) currentStep + 1) (JS.length (steps st) - 1) in
  if JS.strict_neq currentStep (VNum (JS.number_of_Z nextStep)) then
    perform (setState
      {| Update.currentStep := Some (JS.get (steps st) nextStep);
         Update.previousStep := Some currentStep;
         Update.isLn := None;
         Update.isOnchain := None;
         Update.invoice := None |})
  else mret tt.

(** The object [handlePayReqChange] starts from:
    [{ isLn: null, isOnchain: null, invoice: null }]. *)
Definition unclassified : Update.t :=
  {| Update.currentStep := None;
     Update.previousStep := None;
     Update.isLn := Some VNull;
     Update.isOnchain := Some VNull;
     Update.invoice := Some State.InvNull |}.

(** Set isLn/isOnchain state based on payReq value. *)
Definition handlePayReqChange props : Action Form unit :=
  f ← getForm;
  let payReq := form.getValue f "payReq" in
  let state := unclassified in
  if crypto.isLn payReq (Props.chain props) (Props.network props) then
    match crypto.decodePayReq payReq with
    | Some invoice =>
        perform (setState
          {| Update.currentStep := Update.currentStep state;
             Update.previousStep := Update.previousStep state;
             Update.isLn := Some (VBool true);
             Update.isOnchain := Update.isOnchain state;
             Update.invoice := Some (State.InvObject invoice) |})
    | None => mret tt
    end
  else if crypto.isOnchain payReq (Props.chain props) (Props.network props) then
    perform (setState
      {| Update.currentStep := Update.currentStep state;
         Update.previousStep := Update.previousStep state;
         Update.isLn := Update.isLn state;
         Update.isOnchain := Some (VBool true);
         Update.invoice := Update.invoice state |})
  else perform (setState state).

(** Handle the case when the form is mounted with an initialPayReq. *)
Definition handleChange props (formState : form.State) : Action Form unit :=
  st ← getState;
  if JS.strict_eq (State.currentStep st) (VStr "address")
     && negb (JS.truthy (State.previousStep st))
     && JS.truthy (Props.initialPayReq props)
     && JS.truthy (form.payReq (form.values formState))
  then handlePayReqChange props
  else mret tt.

(** Form submit handler. *)
Definition onSubmit props (values : form.Values) : Action Form unit :=
  st ← getState;
  let feeLimit := crypto.getMaxFee (Props.routes props) in
  if JS.strict_eq (State.currentStep st) (VStr "summary") then
    if JS.truthy (State.isOnchain st) then
      perform (sendCoins
        {| SendCoinsParams.value := form.amountCrypto values;
           SendCoinsParams.addr := form.payReq values;
           SendCoinsParams.currency := Props.cryptoCurrency props;
           SendCoinsParams.satPerByte :=
             OnchainFees.fastestFee (Props.onchainFees props) |})
    else perform (payInvoice (form.payReq values) feeLimit)
  else nextStep.

(** [componentDidUpdate(prevProps, prevState)].  The state is read once, on
    entry; [formApi.submitForm()] is recorded and the submission it leads to
    is an event of its own ([Submit] below). *)
Definition componentDidUpdate props prevProps prevState : Action Form unit :=
  st ← getState;
  let currentStep := State.currentStep st in
  let invoice := State.invoice st in
  let isLn := State.isLn st in
  let isOnchain := State.isOnchain st in
  (if JS.truthy (Props.initialPayReq props)
      && JS.strict_neq (Props.initialPayReq props) (Props.initialPayReq prevProps)
   then
     perform formApi_reset;;
     perform (formApi_setValue "payReq" (Props.initialPayReq props));;
     handlePayReqChange props
   else mret tt);;
  (if JS.strict_neq currentStep (State.currentStep prevState) then
     if JS.strict_eq currentStep (VStr "address") then
       f ← getForm;
       forEach (map fst (form.touched (form.getState f)))
         (fun field => perform (formApi_setTouched field false))
     else mret tt
   else mret tt);;
  (if JS.truthy isOnchain && JS.strict_neq isOnchain (State.isOnchain prevState)
   then perform formApi_submitForm
   else mret tt);;
  (if JS.truthy isLn && JS.strict_neq isLn (State.isLn prevState) then
     perform formApi_submitForm;;
     match invoice with
     | State.InvObject invoice =>
         perform (queryRoutes (crypto.payeeNodeKey invoice) (crypto.satoshis invoice))
     | _ => mret tt
     end
   else mret tt).

(** *** render

    The parts of the rendered form that depend on the state: the header
    type, the two error messages of the footer and the props of
    [PayButtons]. *)

(** Determine wether we have a route to the sender. *)
Definition hasRoute props st : bool :=
  if JS.truthy (State.isLn st)
     && JS.strict_eq (State.currentStep st) (VStr "summary")
  then
    let range := crypto.getFeeRange (default [] (Props.routes props)) in
    if JS.strict_eq (crypto.min range) VNull
       || JS.strict_eq (crypto.max range) VNull
    then false
    else true
  else true.

(** Determine wether we have enough funds available. *)
Definition hasEnoughFunds props st (formState : form.State) : bool :=
  match JS.truthy (State.isLn st), State.invoice st with
  | true, State.InvObject invoice =>
      JS.le (crypto.satoshis invoice) (Props.channelBalance props)
  | _, _ =>
      if JS.truthy (State.isOnchain st) then
        let valueInSats :=
          btc.convert (Props.cryptoCurrency props) "sats"
            (form.amountCrypto (form.values formState)) in
        JS.le valueInSats (Props.walletBalance props)
      else true
  end.

Record View : Type := {
  (** [type] of [PayHeader] *)
  headerType : value;
  (** the message [error_no_route] is in the footer *)
  error_no_route : bool;
  (** the message [error_not_enough_funds] is in the footer *)
  error_not_enough_funds : bool;
  (** props of [PayButtons] *)
  disabled : bool;
  showBack : bool;
  showSubmit : value;
  (** the current balance lines are in the footer *)
  current_balance : bool
}.

Definition render props st (formState : form.State) : View :=
  let currentStep := State.currentStep st in
  let isLn := State.isLn st in
  let isOnchain := State.isOnchain st in
  let showBack := JS.strict_neq currentStep (VStr "address") in
  let showSubmit :=
    JS.or (VBool (JS.strict_neq currentStep (VStr "address")))
      (JS.or isOnchain isLn) in
  let hasRoute := hasRoute props st in
  let hasEnoughFunds := hasEnoughFunds props st formState in
  {| headerType :=
       if JS.truthy isLn then VStr "offchain"
       else if JS.truthy isOnchain then VStr "onchain"
       else VNull;
     error_no_route :=
       JS.strict_eq currentStep (VStr "summary")
       && negb (Props.isQueryingRoutes props)
       && negb hasRoute;
     error_not_enough_funds :=
       JS.strict_eq currentStep (VStr "summary") && negb hasEnoughFunds;
     disabled :=
       form.pristine formState
       || form.invalid formState
       || Props.isProcessing props
       || (JS.strict_eq currentStep (VStr "summary")
           && (negb hasRoute || negb hasEnoughFunds));
     showBack := showBack;
     showSubmit := showSubmit;
     current_balance := JS.strict_neq (Props.walletBalance props) VNull |}.

(** *** The life of a mounted form *)

Inductive event : Type :=
| Input (f : Form)
  (** the user edits the form: the form store has new contents *)
| PayReqChange props
  (** [onChange] of the payReq field *)
| Change props (formState : form.State)
  (** [onChange] of the form *)
| Submit props (values : form.Values)
  (** the form library submits the form *)
| Back
  (** [previousStep] of [PayButtons] *)
| DidUpdate props prevProps prevState.

Definition handle (e : event) : Action Form unit :=
  match e with
  | Input f =>
      fun w => (tt, {| state := state w; formApi := f; trace := trace w |})
  | PayReqChange props => handlePayReqChange props
  | Change props formState => handleChange props formState
  | Submit props values => onSubmit props values
  | Back => previousStep
  | DidUpdate props prevProps prevState =>
      componentDidUpdate props prevProps prevState
  end.

Definition mount (f : Form) : World Form :=
  {| state := initialState; formApi := f; trace := [] |}.

(** The world after a method ran. *)
Definition after {A} (m : Action Form A) (w : World Form) : World Form :=
  snd (m w).

Inductive reachable : World Form -> Prop :=
| reachable_mount f : reachable (mount f)
| reachable_handle w e : reachable w -> reachable (after (handle e) w).

(** The world after a list of events, the first one first. *)
Fixpoint run (es : list event) (w : World Form) : World Form :=
  match es with
  | [] => w
  | e :: es' => run es' (after (handle e) w)
  end.

(** *** Vocabulary of the properties *)

(** "The flag is set": the test the code applies to it. *)
Definition is_set (flag : value) : Prop := JS.truthy flag = true.

(** "A decoded invoice is present in state." *)
Definition invoice_present st : Prop :=
  exists invoice, State.invoice st = State.InvObject invoice.

(** Exactly one of the two classification flags is set. *)
Definition exactly_one_set st : Prop :=
  (is_set (State.isLn st) /\ ~ is_set (State.isOnchain st))
  \/ (is_set (State.isOnchain st) /\ ~ is_set (State.isLn st)).

(** One of the three names of a wizard step. *)
Definition step_name (v : value) : Prop :=
  v = VStr "address" \/ v = VStr "amount" \/ v = VStr "summary".

(** The three shapes [handlePayReqChange] gives to the classification
    fields, and the one they have at mount. *)
Definition classified st : Prop :=
  (State.isLn st = VBool true /\ State.isOnchain st = VNull
   /\ invoice_present st)
  \/ (State.isLn st = VNull /\ State.isOnchain st = VBool true
      /\ State.invoice st = State.InvNull)
  \/ (State.isLn st = VNull /\ State.isOnchain st = VNull
      /\ (State.invoice st = State.InvNull
          \/ State.invoice st = State.InvUndefined)).

Definition well_formed st : Prop :=
  step_name (State.currentStep st) /\ classified st.

(** The calls that send a payment, and the route queries. *)
Definition is_payment (e : effect) : bool :=
  match e with
  | sendCoins _ | payInvoice _ _ => true
  | _ => false
  end.

Definition is_queryRoutes (e : effect) : bool :=
  match e with
  | queryRoutes _ _ => true
  | _ => false
  end.



(** The updates [handlePayReqChange] ends with for a Lightning invoice and
    for an on-chain address ([unclassified] is the third). *)
Definition lightning_update (invoice : crypto.Invoice) : Update.t :=
  {| Update.currentStep := None;
     Update.previousStep := None;
     Update.isLn := Some (VBool true);
     Update.isOnchain := Some VNull;
     Update.invoice := Some (State.InvObject invoice) |}.

Definition onchain_update : Update.t :=
  {| Update.currentStep := None;
     Update.previousStep := None;
     Update.isLn := Some VNull;
     Update.isOnchain := Some (VBool true);
     Update.invoice := Some State.InvNull |}.

(** The update of the two step fields made by [previousStep] and
    [nextStep]. *)
Definition step_update (currentStep previousStep : value) : Update.t :=
  {| Update.currentStep := Some currentStep;
     Update.previousStep := Some previousStep;
     Update.isLn := None;
     Update.isOnchain := None;
     Update.invoice := None |}.

End Methods.

(** *** The sub-renderers *)

(** What [renderSummary] puts inside its transition. *)
Inductive summary : Type :=
| PaySummaryOnChain (amount address : value)
| PaySummaryLightning (minFee maxFee payReq : value) (isQueryingRoutes : bool).

(** The [Transition] of [renderSummary]: [items], and what [render()] gives
    when the transition shows it. *)
Record SummaryView : Type := {
  summary_items : bool;
  summary_content : summary
}.

(** The dynamic props of [renderAddressField]. *)
Record AddressField : Type := {
  address_className : string;
  (** the message of the label *)
  address_label : string;
  address_label_readOnly : bool;
  (** [state] of [ShowHidePayReq] *)
  address_state : string;
  address_readOnly : bool;
  address_initialValue : value
}.

(** The dynamic props of [renderAmountFields]. *)
Record AmountFields : Type := {
  (** [state] of [ShowHideAmount] *)
  amount_state : string;
  (** [disabled] of the two inputs *)
  amount_disabled : bool
}.

Section Rendering.

Context {Route : Type}.
Context `{JS.Builtins} `{crypto.Utils Route} `{btc.Utils} `{fees.Utils Route}.

Implicit Types (props : Props.t Route) (st : State.t).

(** [None] is [return null]; otherwise [items] of the transition: the help
    text is shown when it is true. *)
Definition renderHelpText props st : option bool :=
  if JS.truthy (Props.initialPayReq props)
     && negb (JS.truthy (State.previousStep st))
  then None
  else Some (JS.strict_eq (State.currentStep st) (VStr "address")).

Definition renderAddressField props st : AddressField :=
  let currentStep := State.currentStep st in
  {| address_className :=
       if JS.strict_neq currentStep (VStr "summary") then "element-show"
       else "element-hide";
     address_label :=
       if JS.strict_eq currentStep (VStr "address") then "request_label_combined"
       else if JS.truthy (State.isLn st) then "request_label_offchain"
       else "request_label_onchain";
     address_label_readOnly := JS.strict_neq currentStep (VStr "address");
     address_state :=
       if JS.strict_eq currentStep (VStr "address") then "big" else "small";
     address_readOnly := JS.strict_neq currentStep (VStr "address");
     address_initialValue := Props.initialPayReq props |}.

(** [None] is [return null]: do not render unless we are working with an
    onchain address. *)
Definition renderAmountFields st : option AmountFields :=
  let currentStep := State.currentStep st in
  if negb (JS.truthy (State.isOnchain st)) then None
  else
    Some
      {| amount_state :=
           if JS.strict_eq currentStep (VStr "amount") then "show"
           else if JS.strict_eq currentStep (VStr "address") then "hide"
           else "remove";
         amount_disabled := JS.strict_eq currentStep (VStr "address") |}.

(** [formState] is what [this.formApi.getState()] returns.  [None]:
    [routes.length] throws, the [routes] prop being null.  The fees stay
    [undefined] for an empty list.  The method takes [currentStep] and
    [isOnchain] from the state and nothing else, so the [isLn] its [render]
    tests after [isOnchain] is the function imported from
    [lib/utils/crypto], which is truthy: whenever [isOnchain] is not set the
    Lightning summary is rendered. *)
Definition renderSummary props st (formState : form.State) : option SummaryView :=
  match Props.routes props with
  | None => None
  | Some routes =>
      let minFee :=
        if negb (JS.length_of routes =? 0) then fees.getMinFee (Props.routes props)
        else VUndefined in
      let maxFee :=
        if negb (JS.length_of routes =? 0) then crypto.getMaxFee (Props.routes props)
        else VUndefined in
      let render :=
        if JS.truthy (State.isOnchain st) then
          let amountInSatoshis :=
            btc.convert (Props.cryptoCurrency props) "sats"
              (form.amountCrypto (form.values formState)) in
          PaySummaryOnChain amountInSatoshis (form.payReq (form.values formState))
        else
          PaySummaryLightning minFee maxFee (form.payReq (form.values formState))
            (Props.isQueryingRoutes props) in
      Some {| summary_items := JS.strict_eq (State.currentStep st) (VStr "summary");
              summary_content := render |}
  end.

End Rendering.

(** *** More vocabulary *)

Definition is_submitForm (e : effect) : bool :=
  match e with
  | formApi_submitForm => true
  | _ => false
  end.

Definition is_setTouched (e : effect) : bool :=
  match e with
  | formApi_setTouched _ _ => true
  | _ => false
  end.

(** A [setState] that sets [isLn] or [isOnchain]. *)
Definition sets_flag (e : effect) : bool :=
  match e with
  | setState u =>
      JS.truthy (default VNull (Update.isLn u))
      || JS.truthy (default VNull (Update.isOnchain u))
  | _ => false
  end.

(** Reading a trace from its start: every payment comes after a [setState]
    that set a flag.  [seen] tells whether one came before the trace. *)
Fixpoint payments_guarded (seen : bool) (l : list effect) : bool :=
  match l with
  | [] => true
  | e :: l' =>
      (if is_payment e then seen else true)
      && payments_guarded (seen || sets_flag e) l'
  end.

(** [c'] comes right after [c] in the list. *)
Definition adjacent (c c' : value) (l : list value) : Prop :=
  exists l1 l2, l = l1 ++ c :: c' :: l2.

(** The [previousStep] field is null or the name of a step. *)
Definition previous_ok (st : State.t) : Prop :=
  State.previousStep st = VNull \/ step_name (State.previousStep st).

End Pay.

(** ** Wallet *)

Module Wallet.

Record Balance : Type := {
  walletBalance : value;
  channelBalance : value
}.

Record Ticker : Type := {
  currency : value;
  fiatTicker : string
}.

Record Props : Type := {
  balance : Balance;
  (** [info.data.testnet] *)
  testnet : value;
  ticker : Ticker;
  currentTicker : gmap string value;
  currencyFilters : list string
}.

(** The rendered dashboard. *)
Record View : Type := {
  (** the Testnet label next to the logo *)
  testnetLabel : bool;
  (** props of [Value] *)
  value_value : float;
  value_currency : value;
  value_fiatTicker : string;
  (** props of [Dropdown] *)
  dropdown_activeKey : value;
  dropdown_items : list string;
  (** the fiat line: [value] of its [FormattedNumber], when it is there *)
  fiatLine : option value;
  (** the message ids of the buttons *)
  buttons : list string
}.

Section Component.

Context `{JS.Builtins} `{btc.Utils}.

(** [fiatAmount] *)
Definition fiatAmount (p : Props) : value :=
  btc.satoshisToFiat
    (PrimFloat.add (JS.parseInt10 (walletBalance (balance p)))
                   (JS.parseInt10 (channelBalance (balance p))))
    (default VUndefined (currentTicker p !! fiatTicker (ticker p))).

(** The component: [None] is [return null]. *)
Definition Wallet (p : Props) : option View :=
  if negb (JS.truthy (currency (ticker p))) then None
  else
    let fiatAmount := fiatAmount p in
    Some
      {| testnetLabel := JS.truthy (testnet p);
         value_value :=
           PrimFloat.add (JS.parseFloat (walletBalance (balance p)))
                         (JS.parseFloat (channelBalance (balance p)));
         value_currency := currency (ticker p);
         value_fiatTicker := fiatTicker (ticker p);
         dropdown_activeKey := currency (ticker p);
         dropdown_items := currencyFilters p;
         fiatLine := if JS.truthy fiatAmount then Some fiatAmount else None;
         buttons := ["pay"; "request"] |}.

End Component.

End Wallet.

(** ** Sample collaborators

    Small stand-ins for the interfaces above, to run the model on concrete
    inputs.  Numbers in text are unsigned decimal integers; a payment
    request is a Lightning invoice when it starts with [lnbc] and an
    on-chain address when it starts with [bc1]; two invoices decode; a route
    is its total fee. *)

Module Sample.

Definition digit (c : Ascii.ascii) : option Z :=
  let n := Z.of_nat (Ascii.nat_of_ascii c) in
  if (48 <=? n) && (n <=? 57) then Some (n - 48) else None.

(** The number written by the longest prefix of digits, if there is one. *)
Fixpoint digits (s : string) (acc : option Z) : option Z :=
  match s with
  | EmptyString => acc
  | String c s' =>
      match digit c with
      | Some d => digits s' (Some (10 * default 0 acc + d))
      | None => acc
      end
  end.

(** [parseInt(v, 10)] and [parseFloat(v)] on text without sign, fraction or
    exponent, and on numbers that are integers. *)
Definition parse (v : value) : float :=
  match v with
  | VStr s =>
      match digits s None with
      | Some z => JS.number_of_Z z
      | None => nan
      end
  | VNum n => n
  | _ => nan
  end.

(** [Number(s)]: the whole text has to be a number; the empty text is 0. *)
Definition to_number (s : string) : float :=
  if String.eqb s "" then 0%float
  else if forallb (fun c => bool_decide (is_Some (digit c))) (list_ascii_of_string s)
  then parse (VStr s)
  else nan.

#[export] Instance builtins : JS.Builtins :=
  {| JS.StringToNumber := to_number;
     JS.parseInt10 := parse;
     JS.parseFloat := parse |}.

Definition Route : Type := float.

Definition has_prefix (p : string) (v : value) : bool :=
  match v with
  | VStr s => String.prefix p s
  | _ => false
  end.

Definition decode (payReq : value) : option crypto.Invoice :=
  match payReq with
  | VStr "lnbc15u1sample" =>
      Some {| crypto.satoshis := VNum 1500; crypto.payeeNodeKey := VStr "03abc" |}
  | VStr "lnbc2m1sample" =>
      Some {| crypto.satoshis := VNum 200000; crypto.payeeNodeKey := VStr "02def" |}
  | _ => None
  end.

Definition min_fee (routes : list Route) : value :=
  match routes with
  | [] => VNull
  | r :: rs => VNum (fold_left (fun a b => if PrimFloat.leb b a then b else a) rs r)
  end.

Definition max_fee (routes : list Route) : value :=
  match routes with
  | [] => VNull
  | r :: rs => VNum (fold_left (fun a b => if PrimFloat.leb a b then b else a) rs r)
  end.

#[export] Instance crypto_utils : crypto.Utils Route :=
  {| crypto.decodePayReq := decode;
     crypto.getMaxFee routes := max_fee (default [] routes);
     crypto.getFeeRange routes :=
       {| crypto.min := min_fee routes; crypto.max := max_fee routes |};
     crypto.isOnchain payReq _ _ := has_prefix "bc1" payReq;
     crypto.isLn payReq _ _ := has_prefix "lnbc" payReq |}.

#[export] Instance btc_utils : btc.Utils :=
  {| btc.convert from to amount :=
       if String.eqb from to then amount
       else if String.eqb from "btc" && String.eqb to "sats" then
         VNum (PrimFloat.mul (JS.ToNumber amount) 100000000)
       else VNull;
     btc.satoshisToFiat sats price :=
       match price with
       | VNum p => VNum (PrimFloat.mul (PrimFloat.div sats 100000000) p)
       | _ => VNull
       end |}.

#[export] Instance fees_utils : fees.Utils Route :=
  {| fees.getMinFee routes := min_fee (default [] routes) |}.

Definition Form : Type := form.State.

Definition get_field (f : Form) (field : string) : value :=
  if String.eqb field "payReq" then form.payReq (form.values f)
  else if String.eqb field "amountCrypto" then form.amountCrypto (form.values f)
  else if String.eqb field "amountFiat" then form.amountFiat (form.values f)
  else VUndefined.

Definition set_field (f : Form) (field : string) (v : value) : Form :=
  let vs := form.values f in
  {| form.values :=
       {| form.payReq := if String.eqb field "payReq" then v else form.payReq vs;
          form.amountCrypto :=
            if String.eqb field "amountCrypto" then v else form.amountCrypto vs;
          form.amountFiat :=
            if String.eqb field "amountFiat" then v else form.amountFiat vs |};
     form.touched := form.touched f;
     form.pristine := false;
     form.invalid := form.invalid f |}.

Definition blank : Form :=
  {| form.values :=
       {| form.payReq := VUndefined;
          form.amountCrypto := VUndefined;
          form.amountFiat := VUndefined |};
     form.touched := [];
     form.pristine := true;
     form.invalid := false |}.

Definition set_touched (f : Form) (field : string) (b : bool) : Form :=
  {| form.values := form.values f;
     form.touched :=
       List.filter (fun kv => negb (String.eqb (fst kv) field)) (form.touched f)
       ++ [(field, VBool b)];
     form.pristine := form.pristine f;
     form.invalid := form.invalid f |}.

#[export] Instance form_api : form.Api Form :=
  {| form.getValue := get_field;
     form.getState f := f;
     form.reset _ := blank;
     form.setValue := set_field;
     form.setTouched := set_touched |}.

(** A form whose payReq field holds [payReq] and whose amount holds
    [amount]. *)
Definition filled (payReq amount : value) : Form :=
  {| form.values :=
       {| form.payReq := payReq;
          form.amountCrypto := amount;
          form.amountFiat := VUndefined |};
     form.touched := [("payReq", VBool true)];
     form.pristine := false;
     form.invalid := false |}.

Definition props (routes : list Route) (querying : bool) : Pay.Props.t Route :=
  {| Pay.Props.chain := "bitcoin";
     Pay.Props.network := "mainnet";
     Pay.Props.channelBalance := VNum 50000;
     Pay.Props.cryptoCurrency := "sats";
     Pay.Props.initialPayReq := VNull;
     Pay.Props.isProcessing := false;
     Pay.Props.isQueryingRoutes := querying;
     Pay.Props.onchainFees :=
       {| Pay.OnchainFees.fastestFee := VNum 40;
          Pay.OnchainFees.halfHourFee := VNum 20;
          Pay.OnchainFees.hourFee := VNum 10 |};
     Pay.Props.routes := Some routes;
     Pay.Props.walletBalance := VNum 120000 |}.

(** The worlds used below: the form after the user entered [payReq] and
    the classification ran, and after the form then moved forward [n]
    times. *)
Definition entered (payReq amount : value) : Pay.World Form :=
  Pay.after (Pay.handle (Pay.PayReqChange (props [] false)))
    (Pay.after (Pay.handle (Pay.Input (filled payReq amount)))
       (Pay.mount blank)).

Fixpoint advanced (n : nat) (payReq amount : value) : Pay.World Form :=
  match n with
  | O => entered payReq amount
  | S n' =>
      Pay.after
        (Pay.handle (Pay.Submit (props [] false)
                       (form.values (filled payReq amount))))
        (advanced n' payReq amount)
  end.

(** The world [w] after the user replaced the payment request and the
    classification ran again. *)
Definition retyped (w : Pay.World Form) (payReq amount : value) : Pay.World Form :=
  Pay.after (Pay.handle (Pay.PayReqChange (props [] false)))
    (Pay.after (Pay.handle (Pay.Input (filled payReq amount))) w).

Definition wallet_props (currency : value) (wallet channel : value)
  : Wallet.Props :=
  {| Wallet.balance :=
       {| Wallet.walletBalance := wallet; Wallet.channelBalance := channel |};
     Wallet.testnet := VBool false;
     Wallet.ticker := {| Wallet.currency := currency; Wallet.fiatTicker := "USD" |};
     Wallet.currentTicker := {[ "USD" := VNum 40000 ]};
     Wallet.currencyFilters := ["btc"; "bits"; "sats"] |}.

End Sample.

(** * Properties *)

(** ** Values and arrays *)

Section ValueFacts.

Lemma strict_eq_VStr (v : value) (s : string) :
  JS.strict_eq v (VStr s) = true <-> v = VStr s.
Proof.
  destruct v; cbn; try (split; [discriminate | congruence]).
  rewrite String.eqb_eq. split; congruence.
Qed.



(** A string is never [===] a number: the guard of [previousStep] and
    [nextStep]. *)
Lemma strict_neq_VStr_VNum (s : string) (n : float) :
  JS.strict_neq (VStr s) (VNum n) = true.
Proof. reflexivity. Qed.


Lemma indexOf_from_bounds (l : list value) (x : value) (i : Z) :
  JS.indexOf_from l x i = -1
  \/ i <= JS.indexOf_from l x i < i + JS.length l.
Proof.
  revert i. induction l as [|y l IH]; intros i; cbn [JS.indexOf_from].
  - now left.
  - unfold JS.length. cbn [List.length]. destruct (JS.strict_eq y x).
    + right. lia.
    + destruct (IH (i + 1)) as [-> | Hr]; [now left | right].
      unfold JS.length in Hr. lia.
Qed.

Lemma indexOf_bounds (l : list value) (x : value) :
  -1 <= JS.indexOf l x < JS.length l.
Proof.
  unfold JS.indexOf. destruct (indexOf_from_bounds l x 0) as [-> | Hr].
  - unfold JS.length. lia.
  - lia.
Qed.

Lemma get_In (l : list value) (i : Z) :
  0 <= i < JS.length l -> In (JS.get l i) l.
Proof.
  unfold JS.get, JS.length. intros Hi.
  destruct (i <? 0) eqn:Hneg; [lia|].
  destruct (l !! Z.to_nat i) as [v|] eqn:Hl; cbn.
  - apply list_elem_of_In. eapply list_elem_of_lookup_2. exact Hl.
  - apply lookup_ge_None in Hl. lia.
Qed.

End ValueFacts.

(** ** The payment form *)

Section PayFacts.

Context {Route Form : Type}.
Context `{JS.Builtins} `{crypto.Utils Route} `{btc.Utils} `{form.Api Form}.

Implicit Types (props prevProps : Pay.Props.t Route).
Implicit Types (st prevState : Pay.State.t) (w : Pay.World Form).

(** *** Running a method *)

Lemma after_bind {A B} (m : Pay.Action Form A) (f : A -> Pay.Action Form B) w :
  Pay.after (m ≫= f) w = Pay.after (f (fst (m w))) (Pay.after m w).
Proof.
  unfold Pay.after, mbind, Pay.Action_bind. destruct (m w) as [x w']. reflexivity.
Qed.

Lemma after_ret {A} (x : A) w : Pay.after (mret x) w = w.
Proof. reflexivity. Qed.

Lemma state_perform (e : Pay.effect) w :
  Pay.state (Pay.after (Pay.perform e) w)
  = match e with
    | Pay.setState u => Pay.merge (Pay.state w) u
    | _ => Pay.state w
    end.
Proof. reflexivity. Qed.

Lemma trace_perform (e : Pay.effect) w :
  Pay.trace (Pay.after (Pay.perform e) w) = Pay.trace w ++ [e].
Proof. reflexivity. Qed.

(** Marking the fields untouched leaves the state alone and adds one call
    per field. *)
Lemma forEach_setTouched (fields : list string) w :
  let w' :=
    Pay.after
      (Pay.forEach fields (fun field => Pay.perform (Pay.formApi_setTouched field false)))
      w in
  Pay.state w' = Pay.state w
  /\ Pay.trace w'
     = Pay.trace w ++ map (fun field => Pay.formApi_setTouched field false) fields.
Proof.
  revert w. induction fields as [|field fields IH]; intros w; cbn [Pay.forEach map].
  - rewrite after_ret, app_nil_r. now split.
  - cbv zeta in IH |- *. rewrite after_bind.
    destruct (IH (Pay.after (Pay.perform (Pay.formApi_setTouched field false)) w))
      as [Hs Ht].
    rewrite Hs, Ht, state_perform, trace_perform, <- app_assoc. now split.
Qed.

(** *** The list of steps *)

Lemma steps_cases st :
  (Pay.is_set (Pay.State.isLn st)
   /\ Pay.steps st = [VStr "address"; VStr "summary"])
  \/ (~ Pay.is_set (Pay.State.isLn st) /\ Pay.is_set (Pay.State.isOnchain st)
      /\ Pay.steps st = [VStr "address"; VStr "amount"; VStr "summary"])
  \/ (~ Pay.is_set (Pay.State.isLn st) /\ ~ Pay.is_set (Pay.State.isOnchain st)
      /\ Pay.steps st = [VStr "address"]).
Proof.
  unfold Pay.steps, Pay.is_set.
  destruct (JS.truthy (Pay.State.isLn st)); [left; now split | right].
  destruct (JS.truthy (Pay.State.isOnchain st)); [left | right];
    repeat split; congruence.
Qed.

Lemma steps_nonempty st : 1 <= JS.length (Pay.steps st).
Proof.
  destruct (steps_cases st) as [[_ ->] | [(_ & _ & ->) | (_ & _ & ->)]];
    unfold JS.length; cbn; lia.
Qed.

Lemma steps_step_name st (v : value) : In v (Pay.steps st) -> Pay.step_name v.
Proof.
  unfold Pay.step_name.
  destruct (steps_cases st) as [[_ ->] | [(_ & _ & ->) | (_ & _ & ->)]];
    cbn; intuition congruence.
Qed.

(** The steps depend on the two flags only. *)
Lemma steps_merge_step_update st (c p : value) :
  Pay.steps (Pay.merge st (Pay.step_update c p)) = Pay.steps st.
Proof. reflexivity. Qed.

(** *** previousStep and nextStep *)

(** The index [previousStep] moves to, and the one [nextStep] moves to. *)
Lemma previous_index_in_range st (v : value) :
  0 <= Z.max (JS.indexOf (Pay.steps st) v - 1) 0 < JS.length (Pay.steps st).
Proof.
  pose proof (indexOf_bounds (Pay.steps st) v).
  pose proof (steps_nonempty st). lia.
Qed.

Lemma next_index_in_range st (v : value) :
  0 <= Z.min (JS.indexOf (Pay.steps st) v + 1) (JS.length (Pay.steps st) - 1)
    < JS.length (Pay.steps st).
Proof.
  pose proof (indexOf_bounds (Pay.steps st) v).
  pose proof (steps_nonempty st). lia.
Qed.

Lemma after_previousStep w (s : string) :
  Pay.State.currentStep (Pay.state w) = VStr s ->
  Pay.after Pay.previousStep w
  = Pay.after
      (Pay.perform (Pay.setState
         (Pay.step_update
            (JS.get (Pay.steps (Pay.state w))
               (Z.max (JS.indexOf (Pay.steps (Pay.state w)) (VStr s) - 1) 0))
            (VStr s))))
      w.
Proof.
  intros Hs. unfold Pay.previousStep. rewrite after_bind.
  cbn [Pay.getState fst Pay.after snd]. rewrite Hs, strict_neq_VStr_VNum.
  reflexivity.
Qed.

Lemma after_nextStep w (s : string) :
  Pay.State.currentStep (Pay.state w) = VStr s ->
  Pay.after Pay.nextStep w
  = Pay.after
      (Pay.perform (Pay.setState
         (Pay.step_update
            (JS.get (Pay.steps (Pay.state w))
               (Z.min (JS.indexOf (Pay.steps (Pay.state w)) (VStr s) + 1)
                  (JS.length (Pay.steps (Pay.state w)) - 1)))
            (VStr s))))
      w.
Proof.
  intros Hs. unfold Pay.nextStep. rewrite after_bind.
  cbn [Pay.getState fst Pay.after snd]. rewrite Hs, strict_neq_VStr_VNum.
  reflexivity.
Qed.

(** *** handlePayReqChange *)

(** The four ways a run of [handlePayReqChange] ends. *)
Lemma handlePayReqChange_cases props w :
  let payReq := form.getValue (Pay.formApi w) "payReq" in
  let chain := Pay.Props.chain props in
  let network := Pay.Props.network props in
  let w' := Pay.after (Pay.handlePayReqChange props) w in
  (crypto.isLn payReq chain network = true
   /\ crypto.decodePayReq payReq = None /\ w' = w)
  \/ (crypto.isLn payReq chain network = true
      /\ exists invoice,
           crypto.decodePayReq payReq = Some invoice
           /\ w' = Pay.after (Pay.perform (Pay.setState (Pay.lightning_update invoice))) w)
  \/ (crypto.isLn payReq chain network = false
      /\ crypto.isOnchain payReq chain network = true
      /\ w' = Pay.after (Pay.perform (Pay.setState Pay.onchain_update)) w)
  \/ (crypto.isLn payReq chain network = false
      /\ crypto.isOnchain payReq chain network = false
      /\ w' = Pay.after (Pay.perform (Pay.setState Pay.unclassified)) w).
Proof.
  cbv zeta. unfold Pay.handlePayReqChange. rewrite after_bind.
  cbn [Pay.getForm fst Pay.after snd].
  destruct (crypto.isLn _ _ _).
  - destruct (crypto.decodePayReq _) as [invoice|].
    + right; left. split; [reflexivity|]. exists invoice. now split.
    + left. now repeat split.
  - destruct (crypto.isOnchain _ _ _).
    + right; right; left. now repeat split.
    + right; right; right. now repeat split.
Qed.

Lemma handlePayReqChange_well_formed props w :
  Pay.well_formed (Pay.state w) ->
  Pay.well_formed (Pay.state (Pay.after (Pay.handlePayReqChange props) w)).
Proof.
  intros [Hstep Hcl].
  destruct (handlePayReqChange_cases props w)
    as [(_ & _ & ->) | [(_ & invoice & _ & ->) | [(_ & _ & ->) | (_ & _ & ->)]]].
  - now split.
  - split; [exact Hstep|]. left. repeat split. now exists invoice.
  - split; [exact Hstep|]. right; left. now repeat split.
  - split; [exact Hstep|]. right; right. repeat split. now left.
Qed.

(** *** The invariant of the mounted form *)

Lemma step_update_well_formed st (c p : value) :
  Pay.step_name c -> Pay.well_formed st ->
  Pay.well_formed (Pay.merge st (Pay.step_update c p)).
Proof. intros Hc [_ Hcl]. split; [exact Hc | exact Hcl]. Qed.

Lemma previousStep_well_formed w :
  Pay.well_formed (Pay.state w) ->
  Pay.well_formed (Pay.state (Pay.after Pay.previousStep w)).
Proof.
  intros Hwf. destruct (proj1 Hwf) as [Hs | [Hs | Hs]];
    rewrite (after_previousStep w _ Hs), state_perform;
    (apply step_update_well_formed; [|exact Hwf]);
    eapply steps_step_name, get_In, previous_index_in_range.
Qed.

Lemma nextStep_well_formed w :
  Pay.well_formed (Pay.state w) ->
  Pay.well_formed (Pay.state (Pay.after Pay.nextStep w)).
Proof.
  intros Hwf. destruct (proj1 Hwf) as [Hs | [Hs | Hs]];
    rewrite (after_nextStep w _ Hs), state_perform;
    (apply step_update_well_formed; [|exact Hwf]);
    eapply steps_step_name, get_In, next_index_in_range.
Qed.

Lemma onSubmit_well_formed props (values : form.Values) w :
  Pay.well_formed (Pay.state w) ->
  Pay.well_formed (Pay.state (Pay.after (Pay.onSubmit props values) w)).
Proof.
  intros Hwf. unfold Pay.onSubmit. rewrite after_bind.
  cbn [Pay.getState fst]. change (Pay.after Pay.getState w) with w.
  destruct (JS.strict_eq _ _).
  - destruct (JS.truthy _); exact Hwf.
  - now apply nextStep_well_formed.
Qed.

(** *** componentDidUpdate *)

Lemma handlePayReqChange_trace props w :
  exists l,
    Pay.trace (Pay.after (Pay.handlePayReqChange props) w) = Pay.trace w ++ l
    /\ List.filter Pay.is_queryRoutes l = [].
Proof.
  destruct (handlePayReqChange_cases props w)
    as [(_ & _ & ->) | [(_ & invoice & _ & ->) | [(_ & _ & ->) | (_ & _ & ->)]]];
    [exists []; now rewrite app_nil_r | | |];
    (eexists; split; [apply trace_perform | reflexivity]).
Qed.

(** The first block: a new [initialPayReq] resets the form and classifies
    it. *)
Lemma reset_block props prevProps w :
  let w' :=
    Pay.after
      (if JS.truthy (Pay.Props.initialPayReq props)
          && JS.strict_neq (Pay.Props.initialPayReq props)
               (Pay.Props.initialPayReq prevProps)
       then
         Pay.perform Pay.formApi_reset;;
         Pay.perform (Pay.formApi_setValue "payReq" (Pay.Props.initialPayReq props));;
         Pay.handlePayReqChange props
       else mret tt) w in
  (exists l, Pay.trace w' = Pay.trace w ++ l /\ List.filter Pay.is_queryRoutes l = [])
  /\ (Pay.well_formed (Pay.state w) -> Pay.well_formed (Pay.state w')).
Proof.
  cbv zeta. destruct (_ && _).
  - rewrite !after_bind. cbn [fst].
    set (w1 := Pay.after (Pay.perform (Pay.formApi_setValue _ _)) _).
    split.
    + destruct (handlePayReqChange_trace props w1) as (l & -> & Hl).
      exists ([Pay.formApi_reset;
               Pay.formApi_setValue "payReq" (Pay.Props.initialPayReq props)] ++ l).
      split; [subst w1; now rewrite !trace_perform, <- !app_assoc|].
      exact Hl.
    + intros Hwf. now apply handlePayReqChange_well_formed.
  - rewrite after_ret. split; [exists []; now rewrite app_nil_r | tauto].
Qed.

Lemma setTouched_no_query (fields : list string) :
  List.filter Pay.is_queryRoutes
    (map (fun field => Pay.formApi_setTouched field false) fields) = [].
Proof. induction fields as [|x l IH]; [reflexivity | exact IH]. Qed.

(** The second and third blocks make no route query and leave the state
    alone. *)
Lemma touched_block (c c' : value) w :
  let w' :=
    Pay.after
      (if JS.strict_neq c c' then
         if JS.strict_eq c (VStr "address") then
           f ← Pay.getForm;
           Pay.forEach (map fst (form.touched (form.getState f)))
             (fun field => Pay.perform (Pay.formApi_setTouched field false))
         else mret tt
       else mret tt) w in
  (exists l, Pay.trace w' = Pay.trace w ++ l /\ List.filter Pay.is_queryRoutes l = [])
  /\ Pay.state w' = Pay.state w.
Proof.
  cbv zeta.
  destruct (JS.strict_neq c c'), (JS.strict_eq c (VStr "address"));
    try (rewrite after_ret; split; [exists []; now rewrite app_nil_r | reflexivity]).
  rewrite after_bind. cbn [Pay.getForm fst]. change (Pay.after Pay.getForm w) with w.
  destruct (forEach_setTouched (map fst (form.touched (form.getState (Pay.formApi w)))) w)
    as [Hs Ht].
  split; [|exact Hs]. eexists. split; [exact Ht|].
  apply setTouched_no_query.
Qed.

Lemma submit_block (b : bool) w :
  let w' :=
    Pay.after (if b then Pay.perform Pay.formApi_submitForm else mret tt) w in
  (exists l, Pay.trace w' = Pay.trace w ++ l /\ List.filter Pay.is_queryRoutes l = [])
  /\ Pay.state w' = Pay.state w.
Proof.
  cbv zeta. destruct b.
  - split; [exists [Pay.formApi_submitForm]; now split | reflexivity].
  - rewrite after_ret. split; [exists []; now rewrite app_nil_r | reflexivity].
Qed.

(** The whole method: its route queries are those of the last block, and it
    keeps the invariant. *)
Lemma componentDidUpdate_trace props prevProps prevState w :
  let st := Pay.state w in
  let w' := Pay.after (Pay.componentDidUpdate props prevProps prevState) w in
  let last_block :=
    if JS.truthy (Pay.State.isLn st)
       && JS.strict_neq (Pay.State.isLn st) (Pay.State.isLn prevState)
    then
      Pay.formApi_submitForm
      :: match Pay.State.invoice st with
         | Pay.State.InvObject invoice =>
             [Pay.queryRoutes (crypto.payeeNodeKey invoice) (crypto.satoshis invoice)]
         | _ => []
         end
    else [] in
  (exists l,
     Pay.trace w' = Pay.trace w ++ l ++ last_block
     /\ List.filter Pay.is_queryRoutes l = [])
  /\ (Pay.well_formed st -> Pay.well_formed (Pay.state w')).
Proof.
  cbv zeta. unfold Pay.componentDidUpdate.
  rewrite after_bind. cbn [Pay.getState fst]. change (Pay.after Pay.getState w) with w.
  rewrite after_bind.
  destruct (reset_block props prevProps w) as [(l1 & Ht1 & Hq1) Hwf1].
  cbv zeta in Ht1, Hwf1. set (w1 := Pay.after _ w) in *.
  rewrite after_bind.
  destruct (touched_block (Pay.State.currentStep (Pay.state w))
              (Pay.State.currentStep prevState) w1) as [(l2 & Ht2 & Hq2) Hs2].
  cbv zeta in Ht2, Hs2. set (w2 := Pay.after _ w1) in *.
  rewrite after_bind.
  destruct (submit_block
              (JS.truthy (Pay.State.isOnchain (Pay.state w))
               && JS.strict_neq (Pay.State.isOnchain (Pay.state w))
                    (Pay.State.isOnchain prevState)) w2) as [(l3 & Ht3 & Hq3) Hs3].
  cbv zeta in Ht3, Hs3. set (w3 := Pay.after _ w2) in *.
  assert (Hfront : Pay.trace w3 = Pay.trace w ++ (l1 ++ l2 ++ l3)).
  { rewrite Ht3, Ht2, Ht1, <- !app_assoc. reflexivity. }
  assert (Hquiet : List.filter Pay.is_queryRoutes (l1 ++ l2 ++ l3) = []).
  { rewrite !List.filter_app, Hq1, Hq2, Hq3. reflexivity. }
  assert (Hstate : Pay.state w3 = Pay.state w1) by now rewrite Hs3, Hs2.
  clearbody w1 w2 w3.
  destruct (JS.truthy (Pay.State.isLn (Pay.state w)) && _).
  - rewrite after_bind. destruct (Pay.State.invoice (Pay.state w)) as [| |invoice];
      cbn [fst]; rewrite ?after_ret;
      (split;
       [exists (l1 ++ l2 ++ l3); split; [|exact Hquiet];
        rewrite ?trace_perform, Hfront, <- !app_assoc; reflexivity
       |intros Hwf; rewrite ?state_perform, Hstate; now apply Hwf1]).
  - rewrite after_ret. split.
    + exists (l1 ++ l2 ++ l3). split; [|exact Hquiet].
      now rewrite Hfront, app_nil_r.
    + intros Hwf. rewrite Hstate. now apply Hwf1.
Qed.

(** *** Every reachable state is well formed *)

Lemma handle_well_formed (e : Pay.event) w :
  Pay.well_formed (Pay.state w) ->
  Pay.well_formed (Pay.state (Pay.after (Pay.handle e) w)).
Proof.
  intros Hwf.
  destruct e as [f | props | props formState | props values | | props prevProps prevState];
    cbn [Pay.handle].
  - exact Hwf.
  - now apply handlePayReqChange_well_formed.
  - unfold Pay.handleChange. rewrite after_bind.
    cbn [Pay.getState fst]. change (Pay.after Pay.getState w) with w.
    destruct (_ && _); [now apply handlePayReqChange_well_formed | exact Hwf].
  - now apply onSubmit_well_formed.
  - now apply previousStep_well_formed.
  - now apply componentDidUpdate_trace.
Qed.

Lemma initialState_well_formed : Pay.well_formed Pay.initialState.
Proof.
  split; [now left|]. right; right. repeat split. now right.
Qed.

Lemma reachable_well_formed w :
  Pay.reachable w -> Pay.well_formed (Pay.state w).
Proof.
  induction 1 as [f | w e _ IH].
  - exact initialState_well_formed.
  - now apply handle_well_formed.
Qed.

(** What the invariant says of the flags. *)
Lemma classified_isLn st :
  Pay.classified st -> Pay.is_set (Pay.State.isLn st) ->
  Pay.State.isLn st = VBool true /\ Pay.State.isOnchain st = VNull
  /\ Pay.invoice_present st.
Proof.
  unfold Pay.is_set.
  intros [Hc | [(Hl & _) | (Hl & _)]] Hset;
    [exact Hc | rewrite Hl in Hset; discriminate..].
Qed.

Lemma classified_isOnchain st :
  Pay.classified st -> Pay.is_set (Pay.State.isOnchain st) ->
  Pay.State.isLn st = VNull /\ Pay.State.isOnchain st = VBool true
  /\ Pay.State.invoice st = Pay.State.InvNull.
Proof.
  unfold Pay.is_set.
  intros [(_ & Ho & _) | [Hc | (_ & Ho & _)]] Hset;
    [rewrite Ho in Hset; discriminate | exact Hc | rewrite Ho in Hset; discriminate].
Qed.

Lemma classified_at_most_one st :
  Pay.classified st ->
  ~ (Pay.is_set (Pay.State.isLn st) /\ Pay.is_set (Pay.State.isOnchain st)).
Proof.
  intros Hc [Hl Ho]. destruct (classified_isLn st Hc Hl) as (_ & Hn & _).
  unfold Pay.is_set in Ho. rewrite Hn in Ho. discriminate.
Qed.

(** *** Classification of the payment request *)

(** C1, amended.  After a run of [handlePayReqChange] the flags are: [isLn]
    true, [isOnchain] null and the decoded invoice stored when the payment
    request is a Lightning invoice that decodes; [isOnchain] true and [isLn]
    null when it is not a Lightning invoice but an on-chain address; both
    null when it is neither.  So whenever the state update is applied, at
    most one of the two flags is set. *)
Theorem handlePayReqChange_classification props w :
  let payReq := form.getValue (Pay.formApi w) "payReq" in
  let chain := Pay.Props.chain props in
  let network := Pay.Props.network props in
  let st' := Pay.state (Pay.after (Pay.handlePayReqChange props) w) in
  (forall invoice,
     crypto.isLn payReq chain network = true ->
     crypto.decodePayReq payReq = Some invoice ->
     Pay.State.isLn st' = VBool true
     /\ Pay.State.isOnchain st' = VNull
     /\ Pay.State.invoice st' = Pay.State.InvObject invoice)
  /\ (crypto.isLn payReq chain network = false ->
      crypto.isOnchain payReq chain network = true ->
      Pay.State.isLn st' = VNull
      /\ Pay.State.isOnchain st' = VBool true
      /\ Pay.State.invoice st' = Pay.State.InvNull)
  /\ (crypto.isLn payReq chain network = false ->
      crypto.isOnchain payReq chain network = false ->
      Pay.State.isLn st' = VNull
      /\ Pay.State.isOnchain st' = VNull
      /\ Pay.State.invoice st' = Pay.State.InvNull)
  /\ (crypto.isLn payReq chain network = false
      \/ crypto.decodePayReq payReq <> None ->
      ~ (Pay.is_set (Pay.State.isLn st') /\ Pay.is_set (Pay.State.isOnchain st'))).
Proof.
  cbv zeta.
  destruct (handlePayReqChange_cases props w)
    as [(Hln & Hd & ->) | [(Hln & i & Hd & ->) | [(Hln & Hon & ->) | (Hln & Hon & ->)]]];
    rewrite ?state_perform; unfold Pay.is_set; cbn;
    repeat split; try congruence; try tauto.
  all: try (intros [? | ?] [? ?]; congruence).
  all: intros; intuition congruence.
Qed.

(** C5.  A payment request that [isLn] recognises and [decodePayReq] fails
    to decode: [handlePayReqChange] returns before [setState], and nothing
    changes, neither the state (so [isLn], [isOnchain] and [invoice] keep
    their values) nor the trace of calls. *)
Theorem handlePayReqChange_decode_failure props w :
  let payReq := form.getValue (Pay.formApi w) "payReq" in
  crypto.isLn payReq (Pay.Props.chain props) (Pay.Props.network props) = true ->
  crypto.decodePayReq payReq = None ->
  Pay.after (Pay.handlePayReqChange props) w = w.
Proof.
  cbv zeta. intros Hln Hd.
  destruct (handlePayReqChange_cases props w)
    as [(_ & _ & Hw) | [(_ & i & Hd' & _) | [(Hln' & _) | (Hln' & _)]]];
    [exact Hw | congruence..].
Qed.

(** *** Submission *)



(** *** The wizard *)

(** At the first enabled step [previousStep] stays there, and at the last
    one [nextStep] does. *)
Lemma previousStep_at_first w (s : string) :
  Pay.State.currentStep (Pay.state w) = VStr s ->
  List.hd VUndefined (Pay.steps (Pay.state w)) = VStr s ->
  Pay.State.currentStep (Pay.state (Pay.after Pay.previousStep w)) = VStr s.
Proof.
  intros Hs Hfirst. rewrite (after_previousStep w s Hs), state_perform.
  destruct (steps_cases (Pay.state w)) as [[_ Hl] | [(_ & _ & Hl) | (_ & _ & Hl)]];
    rewrite Hl in Hfirst |- *; cbn in Hfirst; injection Hfirst as <-; reflexivity.
Qed.

Lemma nextStep_at_last w (s : string) :
  Pay.State.currentStep (Pay.state w) = VStr s ->
  List.last (Pay.steps (Pay.state w)) VUndefined = VStr s ->
  Pay.State.currentStep (Pay.state (Pay.after Pay.nextStep w)) = VStr s.
Proof.
  intros Hs Hlast. rewrite (after_nextStep w s Hs), state_perform.
  destruct (steps_cases (Pay.state w)) as [[_ Hl] | [(_ & _ & Hl) | (_ & _ & Hl)]];
    rewrite Hl in Hlast |- *; cbn in Hlast; injection Hlast as <-; reflexivity.
Qed.

(** C3.  The enabled steps are address and summary when [isLn] is set,
    address, amount and summary when [isOnchain] is set, and address alone
    when neither is.  After [nextStep] and after [previousStep] the current
    step is a member of that list, which the two methods do not change;
    [nextStep] at the last enabled step and [previousStep] at the first one
    keep the current step; and the current step is always one of the three
    names. *)
Theorem steps_and_navigation w :
  Pay.reachable w ->
  let st := Pay.state w in
  let next := Pay.state (Pay.after Pay.nextStep w) in
  let prev := Pay.state (Pay.after Pay.previousStep w) in
  (Pay.is_set (Pay.State.isLn st) ->
   Pay.steps st = [VStr "address"; VStr "summary"])
  /\ (Pay.is_set (Pay.State.isOnchain st) ->
      Pay.steps st = [VStr "address"; VStr "amount"; VStr "summary"])
  /\ (~ Pay.is_set (Pay.State.isLn st) -> ~ Pay.is_set (Pay.State.isOnchain st) ->
      Pay.steps st = [VStr "address"])
  /\ (In (Pay.State.currentStep next) (Pay.steps st) /\ Pay.steps next = Pay.steps st)
  /\ (In (Pay.State.currentStep prev) (Pay.steps st) /\ Pay.steps prev = Pay.steps st)
  /\ (List.last (Pay.steps st) VUndefined = Pay.State.currentStep st ->
      Pay.State.currentStep next = Pay.State.currentStep st)
  /\ (List.hd VUndefined (Pay.steps st) = Pay.State.currentStep st ->
      Pay.State.currentStep prev = Pay.State.currentStep st)
  /\ Pay.step_name (Pay.State.currentStep st).
Proof.
  intros Hreach. cbv zeta.
  destruct (reachable_well_formed w Hreach) as [Hname Hcl].
  assert (Hstr : exists s, Pay.State.currentStep (Pay.state w) = VStr s).
  { destruct Hname as [-> | [-> | ->]]; eexists; reflexivity. }
  destruct Hstr as [s Hs].
  split; [|split; [|split; [|split; [|split; [|split; [|split]]]]]].
  - intros Hset. unfold Pay.steps. now rewrite Hset.
  - intros Hset. destruct (classified_isOnchain _ Hcl Hset) as (Hl & Ho & _).
    unfold Pay.steps. now rewrite Hl, Ho.
  - unfold Pay.is_set, Pay.steps. intros Hl Ho.
    destruct (JS.truthy (Pay.State.isLn (Pay.state w))); [congruence|].
    destruct (JS.truthy (Pay.State.isOnchain (Pay.state w))); congruence.
  - rewrite (after_nextStep w s Hs), state_perform.
    split; [apply get_In, next_index_in_range | reflexivity].
  - rewrite (after_previousStep w s Hs), state_perform.
    split; [apply get_In, previous_index_in_range | reflexivity].
  - rewrite Hs. apply nextStep_at_last, Hs.
  - rewrite Hs. apply previousStep_at_first, Hs.
  - exact Hname.
Qed.

(** C8.  The current step is a string and is never [===] the numeric index
    it is compared with, so every call of [previousStep] and of [nextStep]
    calls [setState], with the old current step as [previousStep]; at the
    first enabled step [previousStep] keeps the current step and still
    overwrites the [previousStep] field with it, and so does [nextStep] at
    the last one. *)
Theorem step_update_unconditional w :
  Pay.reachable w ->
  let st := Pay.state w in
  let current := Pay.State.currentStep st in
  let prev := Pay.after Pay.previousStep w in
  let next := Pay.after Pay.nextStep w in
  (forall index : Z, JS.strict_neq current (VNum (JS.number_of_Z index)) = true)
  /\ (exists c,
        Pay.trace prev = Pay.trace w ++ [Pay.setState (Pay.step_update c current)]
        /\ Pay.state prev = Pay.merge st (Pay.step_update c current))
  /\ (exists c,
        Pay.trace next = Pay.trace w ++ [Pay.setState (Pay.step_update c current)]
        /\ Pay.state next = Pay.merge st (Pay.step_update c current))
  /\ (List.hd VUndefined (Pay.steps st) = current ->
      Pay.State.currentStep (Pay.state prev) = current
      /\ Pay.State.previousStep (Pay.state prev) = current)
  /\ (List.last (Pay.steps st) VUndefined = current ->
      Pay.State.currentStep (Pay.state next) = current
      /\ Pay.State.previousStep (Pay.state next) = current).
Proof.
  intros Hreach. cbv zeta.
  destruct (reachable_well_formed w Hreach) as [Hname _].
  assert (Hstr : exists s, Pay.State.currentStep (Pay.state w) = VStr s).
  { destruct Hname as [-> | [-> | ->]]; eexists; reflexivity. }
  destruct Hstr as [s Hs]. rewrite Hs.
  split; [|split; [|split; [|split]]].
  - intros index. apply strict_neq_VStr_VNum.
  - rewrite (after_previousStep w s Hs). eexists. split; reflexivity.
  - rewrite (after_nextStep w s Hs). eexists. split; reflexivity.
  - intros Hfirst. split; [now apply previousStep_at_first|].
    now rewrite (after_previousStep w s Hs).
  - intros Hlast. split; [now apply nextStep_at_last|].
    now rewrite (after_nextStep w s Hs).
Qed.

(** *** The route query *)

Lemma componentDidUpdate_query props prevProps prevState w (invoice : crypto.Invoice) :
  Pay.State.isLn (Pay.state w) = VBool true ->
  ~ Pay.is_set (Pay.State.isLn prevState) ->
  Pay.State.invoice (Pay.state w) = Pay.State.InvObject invoice ->
  exists l,
    Pay.trace (Pay.after (Pay.componentDidUpdate props prevProps prevState) w)
    = Pay.trace w ++ l
    /\ In Pay.formApi_submitForm l
    /\ List.filter Pay.is_queryRoutes l
       = [Pay.queryRoutes (crypto.payeeNodeKey invoice) (crypto.satoshis invoice)].
Proof.
  intros Hln Hprev Hinv.
  destruct (componentDidUpdate_trace props prevProps prevState w)
    as [(l & Ht & Hq) _].
  cbv zeta in Ht. rewrite Hln, Hinv in Ht.
  assert (Hneq : JS.strict_neq (VBool true) (Pay.State.isLn prevState) = true).
  { unfold Pay.is_set in Hprev.
    destruct (Pay.State.isLn prevState) as [| |[|]| |]; cbn in *; congruence. }
  rewrite Hneq in Ht. cbn [JS.truthy andb] in Ht.
  eexists. split; [exact Ht|]. split.
  - apply in_or_app. right. now left.
  - rewrite List.filter_app, Hq. reflexivity.
Qed.

(** C4.  In an update where [isLn] went from unset to set and the state
    holds a decoded invoice, [componentDidUpdate] submits the form and makes
    exactly one call to [queryRoutes], with the invoice's [payeeNodeKey] and
    [satoshis]. *)
Theorem componentDidUpdate_queries_routes
  props prevProps prevState w (invoice : crypto.Invoice) :
  Pay.reachable w ->
  ~ Pay.is_set (Pay.State.isLn prevState) ->
  Pay.is_set (Pay.State.isLn (Pay.state w)) ->
  Pay.State.invoice (Pay.state w) = Pay.State.InvObject invoice ->
  exists l,
    Pay.trace (Pay.after (Pay.componentDidUpdate props prevProps prevState) w)
    = Pay.trace w ++ l
    /\ In Pay.formApi_submitForm l
    /\ List.filter Pay.is_queryRoutes l
       = [Pay.queryRoutes (crypto.payeeNodeKey invoice) (crypto.satoshis invoice)].
Proof.
  intros Hreach Hprev Hset Hinv.
  destruct (reachable_well_formed w Hreach) as [_ Hcl].
  destruct (classified_isLn _ Hcl Hset) as (Hln & _).
  now apply componentDidUpdate_query.
Qed.

(** Entering a Lightning invoice that decodes, in a form where [isLn] was
    not set: the classification sets [isLn] and stores the invoice, and the
    update that follows makes the one route query. *)
Corollary entering_invoice_queries_routes props w (invoice : crypto.Invoice) :
  let payReq := form.getValue (Pay.formApi w) "payReq" in
  let w1 := Pay.after (Pay.handlePayReqChange props) w in
  ~ Pay.is_set (Pay.State.isLn (Pay.state w)) ->
  crypto.isLn payReq (Pay.Props.chain props) (Pay.Props.network props) = true ->
  crypto.decodePayReq payReq = Some invoice ->
  Pay.is_set (Pay.State.isLn (Pay.state w1))
  /\ exists l,
       Pay.trace (Pay.after (Pay.componentDidUpdate props props (Pay.state w)) w1)
       = Pay.trace w1 ++ l
       /\ List.filter Pay.is_queryRoutes l
          = [Pay.queryRoutes (crypto.payeeNodeKey invoice) (crypto.satoshis invoice)].
Proof.
  cbv zeta. intros Hprev Hln Hd.
  destruct (handlePayReqChange_cases props w)
    as [(_ & Hd' & _) | [(_ & i & Hd' & Hw) | [(Hln' & _) | (Hln' & _)]]];
    try congruence.
  assert (i = invoice) as -> by congruence.
  rewrite Hw. split; [reflexivity|].
  destruct (componentDidUpdate_query props props (Pay.state w)
              (Pay.after (Pay.perform (Pay.setState (Pay.lightning_update invoice))) w)
              invoice) as (l & Ht & _ & Hq); try reflexivity; [exact Hprev|].
  exists l. now split.
Qed.

(** *** The messages of the footer *)




End PayFacts.

(** ** The wallet dashboard *)

Section WalletFacts.

Context `{JS.Builtins} `{btc.Utils}.

(** C9.  Without a currency in the ticker the component returns null:
    nothing is rendered. *)
Theorem Wallet_null_without_currency (p : Wallet.Props) :
  JS.truthy (Wallet.currency (Wallet.ticker p)) = false ->
  Wallet.Wallet p = None.
Proof. intros Hc. unfold Wallet.Wallet. now rewrite Hc. Qed.


End WalletFacts.

(** ** More on the payment form *)

Section PayMore.

Context {Route Form : Type}.
Context `{JS.Builtins} `{crypto.Utils Route} `{btc.Utils} `{form.Api Form}.
Context `{fees.Utils Route}.

Implicit Types (props prevProps : Pay.Props.t Route).
Implicit Types (st prevState : Pay.State.t) (w : Pay.World Form).

(** *** What a run of componentDidUpdate is made of *)

Lemma componentDidUpdate_shape props prevProps prevState w :
  let st := Pay.state w in
  let changed :=
    JS.truthy (Pay.Props.initialPayReq props)
    && JS.strict_neq (Pay.Props.initialPayReq props) (Pay.Props.initialPayReq prevProps) in
  let w1 :=
    if changed then
      Pay.after (Pay.handlePayReqChange props)
        (Pay.after (Pay.perform (Pay.formApi_setValue "payReq" (Pay.Props.initialPayReq props)))
           (Pay.after (Pay.perform Pay.formApi_reset) w))
    else w in
  let fields :=
    if JS.strict_neq (Pay.State.currentStep st) (Pay.State.currentStep prevState)
       && JS.strict_eq (Pay.State.currentStep st) (VStr "address")
    then map fst (form.touched (form.getState (Pay.formApi w1)))
    else [] in
  let l3 :=
    if JS.truthy (Pay.State.isOnchain st)
       && JS.strict_neq (Pay.State.isOnchain st) (Pay.State.isOnchain prevState)
    then [Pay.formApi_submitForm]
    else [] in
  let l4 :=
    if JS.truthy (Pay.State.isLn st)
       && JS.strict_neq (Pay.State.isLn st) (Pay.State.isLn prevState)
    then
      Pay.formApi_submitForm
      :: match Pay.State.invoice st with
         | Pay.State.InvObject invoice =>
             [Pay.queryRoutes (crypto.payeeNodeKey invoice) (crypto.satoshis invoice)]
         | _ => []
         end
    else [] in
  let w' := Pay.after (Pay.componentDidUpdate props prevProps prevState) w in
  Pay.state w' = Pay.state w1
  /\ Pay.trace w'
     = Pay.trace w1
       ++ map (fun field => Pay.formApi_setTouched field false) fields ++ l3 ++ l4.
Proof.
  cbv zeta. unfold Pay.componentDidUpdate.
  rewrite after_bind. cbn [Pay.getState fst]. change (Pay.after Pay.getState w) with w.
  rewrite after_bind.
  set (w1 := Pay.after (if _ && _ then _ else mret tt) w).
  assert (Hw1 : w1 =
    if JS.truthy (Pay.Props.initialPayReq props)
       && JS.strict_neq (Pay.Props.initialPayReq props) (Pay.Props.initialPayReq prevProps)
    then
      Pay.after (Pay.handlePayReqChange props)
        (Pay.after (Pay.perform (Pay.formApi_setValue "payReq" (Pay.Props.initialPayReq props)))
           (Pay.after (Pay.perform Pay.formApi_reset) w))
    else w).
  { subst w1. destruct (_ && _); [now rewrite !after_bind | reflexivity]. }
  rewrite <- Hw1. clearbody w1. clear Hw1.
  rewrite after_bind.
  set (w2 := Pay.after _ w1).
  assert (Hw2 : Pay.state w2 = Pay.state w1
                /\ Pay.trace w2
                   = Pay.trace w1
                     ++ map (fun field => Pay.formApi_setTouched field false)
                          (if JS.strict_neq (Pay.State.currentStep (Pay.state w))
                                (Pay.State.currentStep prevState)
                              && JS.strict_eq (Pay.State.currentStep (Pay.state w))
                                   (VStr "address")
                           then map fst (form.touched (form.getState (Pay.formApi w1)))
                           else [])).
  { subst w2.
    destruct (JS.strict_neq _ _), (JS.strict_eq (Pay.State.currentStep _) _);
      cbn [andb map]; rewrite ?after_ret, ?app_nil_r; try (split; reflexivity).
    rewrite after_bind. cbn [Pay.getForm fst]. change (Pay.after Pay.getForm w1) with w1.
    apply forEach_setTouched. }
  destruct Hw2 as [Hs2 Ht2]. clearbody w2.
  rewrite after_bind.
  set (w3 := Pay.after _ w2).
  assert (Hw3 : Pay.state w3 = Pay.state w2
                /\ Pay.trace w3
                   = Pay.trace w2
                     ++ (if JS.truthy (Pay.State.isOnchain (Pay.state w))
                            && JS.strict_neq (Pay.State.isOnchain (Pay.state w))
                                 (Pay.State.isOnchain prevState)
                         then [Pay.formApi_submitForm] else [])).
  { subst w3. destruct (JS.truthy (Pay.State.isOnchain (Pay.state w)) && _);
      rewrite ?after_ret, ?app_nil_r; split; reflexivity. }
  destruct Hw3 as [Hs3 Ht3]. clearbody w3.
  destruct (JS.truthy (Pay.State.isLn (Pay.state w)) && _).
  - rewrite after_bind.
    destruct (Pay.State.invoice (Pay.state w)) as [| |invoice];
      cbn [fst]; rewrite ?after_ret, ?state_perform, ?trace_perform;
      rewrite Hs3, Hs2, Ht3, Ht2, <- ?app_assoc; split; reflexivity.
  - rewrite after_ret, Hs3, Hs2, Ht3, Ht2, <- ?app_assoc, ?app_nil_r.
    split; reflexivity.
Qed.

(** The same run, told by what it adds to the trace: the reset of the
    form, at most one classification, the untouching of the fields, and the
    submissions and the route query of the last two blocks. *)
Lemma componentDidUpdate_cases props prevProps prevState w :
  let st := Pay.state w in
  let w' := Pay.after (Pay.componentDidUpdate props prevProps prevState) w in
  exists (l0 lu : list Pay.effect) (fields : list string),
    Pay.trace w'
    = Pay.trace w ++ l0 ++ lu
      ++ map (fun field => Pay.formApi_setTouched field false) fields
      ++ (if JS.truthy (Pay.State.isOnchain st)
             && JS.strict_neq (Pay.State.isOnchain st) (Pay.State.isOnchain prevState)
          then [Pay.formApi_submitForm] else [])
      ++ (if JS.truthy (Pay.State.isLn st)
             && JS.strict_neq (Pay.State.isLn st) (Pay.State.isLn prevState)
          then
            Pay.formApi_submitForm
            :: match Pay.State.invoice st with
               | Pay.State.InvObject invoice =>
                   [Pay.queryRoutes (crypto.payeeNodeKey invoice) (crypto.satoshis invoice)]
               | _ => []
               end
          else [])
    /\ (l0 = []
        \/ l0 = [Pay.formApi_reset;
                 Pay.formApi_setValue "payReq" (Pay.Props.initialPayReq props)])
    /\ ((lu = [] /\ Pay.state w' = st)
        \/ exists u,
             (u = Pay.unclassified \/ u = Pay.onchain_update
              \/ exists invoice, u = Pay.lightning_update invoice)
             /\ lu = [Pay.setState u] /\ Pay.state w' = Pay.merge st u).
Proof.
  cbv zeta.
  destruct (componentDidUpdate_shape props prevProps prevState w) as [Hs Ht].
  cbv zeta in Hs, Ht. rewrite Hs, Ht. clear Hs Ht.
  destruct (JS.truthy (Pay.Props.initialPayReq props) && _).
  - set (w0 := Pay.after (Pay.perform (Pay.formApi_setValue _ _)) _).
    assert (Ht0 : Pay.trace w0
                  = Pay.trace w
                    ++ [Pay.formApi_reset;
                        Pay.formApi_setValue "payReq" (Pay.Props.initialPayReq props)]).
    { subst w0. now rewrite !trace_perform, <- app_assoc. }
    assert (Hs0 : Pay.state w0 = Pay.state w) by reflexivity.
    exists [Pay.formApi_reset;
            Pay.formApi_setValue "payReq" (Pay.Props.initialPayReq props)].
    destruct (handlePayReqChange_cases props w0)
      as [(_ & _ & ->) | [(_ & i & _ & ->) | [(_ & _ & ->) | (_ & _ & ->)]]].
    + eexists [], _.
      rewrite Ht0, Hs0, <- !app_assoc. cbn [app].
      split; [reflexivity|]. split; [now right | now left].
    + eexists [Pay.setState (Pay.lightning_update i)], _.
      rewrite state_perform, trace_perform, Ht0, Hs0, <- !app_assoc. cbn [app].
      split; [reflexivity|]. split; [now right|]. right.
      exists (Pay.lightning_update i). split; [right; right; now exists i | now split].
    + eexists [Pay.setState Pay.onchain_update], _.
      rewrite state_perform, trace_perform, Ht0, Hs0, <- !app_assoc. cbn [app].
      split; [reflexivity|]. split; [now right|]. right.
      exists Pay.onchain_update. split; [right; now left | now split].
    + eexists [Pay.setState Pay.unclassified], _.
      rewrite state_perform, trace_perform, Ht0, Hs0, <- !app_assoc. cbn [app].
      split; [reflexivity|]. split; [now right|]. right.
      exists Pay.unclassified. split; [now left | now split].
  - eexists [], [], _. cbn [app]. split; [reflexivity|]. split; now left.
Qed.

(** The untouching of the fields is none of the calls the properties below
    look for. *)
Lemma filter_setTouched (P : Pay.effect -> bool) (fields : list string) :
  (forall field b, P (Pay.formApi_setTouched field b) = false) ->
  List.filter P (map (fun field => Pay.formApi_setTouched field false) fields) = [].
Proof.
  intros HP. induction fields as [|x l IH]; cbn; [reflexivity|].
  now rewrite HP.
Qed.

(** *** What an event does *)

(** Every event but an update of the component: nothing, one
    classification, one move of the wizard, or one payment, the last only
    for a submission on the summary step. *)
Lemma handle_cases (e : Pay.event) w (s : string) :
  Pay.State.currentStep (Pay.state w) = VStr s ->
  let st := Pay.state w in
  let w' := Pay.after (Pay.handle e) w in
  (Pay.trace w' = Pay.trace w /\ Pay.state w' = st)
  \/ (exists u,
        (u = Pay.unclassified \/ u = Pay.onchain_update
         \/ exists invoice, u = Pay.lightning_update invoice)
        /\ Pay.trace w' = Pay.trace w ++ [Pay.setState u]
        /\ Pay.state w' = Pay.merge st u)
  \/ (exists c,
        In c (Pay.steps st)
        /\ Pay.trace w' = Pay.trace w ++ [Pay.setState (Pay.step_update c (VStr s))]
        /\ Pay.state w' = Pay.merge st (Pay.step_update c (VStr s)))
  \/ (exists props values p,
        e = Pay.Submit props values /\ s = "summary" /\ Pay.is_payment p = true
        /\ Pay.trace w' = Pay.trace w ++ [p] /\ Pay.state w' = st)
  \/ (exists props prevProps prevState, e = Pay.DidUpdate props prevProps prevState).
Proof.
  intros Hs. cbv zeta.
  assert (Hclass : forall props,
    (Pay.trace (Pay.after (Pay.handlePayReqChange props) w) = Pay.trace w
     /\ Pay.state (Pay.after (Pay.handlePayReqChange props) w) = Pay.state w)
    \/ (exists u,
          (u = Pay.unclassified \/ u = Pay.onchain_update
           \/ exists invoice, u = Pay.lightning_update invoice)
          /\ Pay.trace (Pay.after (Pay.handlePayReqChange props) w)
             = Pay.trace w ++ [Pay.setState u]
          /\ Pay.state (Pay.after (Pay.handlePayReqChange props) w)
             = Pay.merge (Pay.state w) u)).
  { intros props.
    destruct (handlePayReqChange_cases props w)
      as [(_ & _ & ->) | [(_ & i & _ & ->) | [(_ & _ & ->) | (_ & _ & ->)]]].
    - left. now split.
    - right. exists (Pay.lightning_update i). split; [right; right; now exists i | now split].
    - right. exists Pay.onchain_update. split; [right; now left | now split].
    - right. exists Pay.unclassified. split; [now left | now split]. }
  destruct e as [f | props | props formState | props values | | props prevProps prevState];
    cbn [Pay.handle].
  - left. now split.
  - destruct (Hclass props) as [Hc | Hc]; [now left | right; now left].
  - unfold Pay.handleChange. rewrite after_bind.
    cbn [Pay.getState fst]. change (Pay.after Pay.getState w) with w.
    destruct (_ && _); [|left; now split].
    destruct (Hclass props) as [Hc | Hc]; [now left | right; now left].
  - unfold Pay.onSubmit. rewrite after_bind.
    cbn [Pay.getState fst]. change (Pay.after Pay.getState w) with w.
    destruct (JS.strict_eq _ _) eqn:Hstep.
    + apply strict_eq_VStr in Hstep. rewrite Hs in Hstep. injection Hstep as ->.
      right; right; right; left. exists props, values.
      destruct (JS.truthy _); eexists; (split; [reflexivity|]);
        (split; [reflexivity|]); (split; [|split; reflexivity]); reflexivity.
    + right; right; left. rewrite (after_nextStep w s Hs). eexists.
      split; [apply get_In, next_index_in_range|]. now split.
  - right; right; left. rewrite (after_previousStep w s Hs). eexists.
    split; [apply get_In, previous_index_in_range|]. now split.
  - right; right; right; right. now exists props, prevProps, prevState.
Qed.

(** *** Invariants of the state *)

Lemma well_formed_string st :
  Pay.well_formed st -> exists s, Pay.State.currentStep st = VStr s /\ s <> "".
Proof.
  intros [[-> | [-> | ->]] _]; eexists; (split; [reflexivity | discriminate]).
Qed.

Lemma run_reachable (es : list Pay.event) w :
  Pay.reachable w -> Pay.reachable (Pay.run es w).
Proof.
  revert w. induction es as [|e es IH]; intros w Hw; cbn [Pay.run].
  - exact Hw.
  - apply IH. now apply Pay.reachable_handle.
Qed.

(** The classification fields of the state after an event: kept, or those
    of one of the three updates of [handlePayReqChange]; the two step
    fields: kept, or moved by [previousStep] or [nextStep]. *)
Lemma handle_state (e : Pay.event) w :
  Pay.well_formed (Pay.state w) ->
  let st := Pay.state w in
  let st' := Pay.state (Pay.after (Pay.handle e) w) in
  st' = st
  \/ (exists u,
        (u = Pay.unclassified \/ u = Pay.onchain_update
         \/ exists invoice, u = Pay.lightning_update invoice)
        /\ st' = Pay.merge st u)
  \/ (exists c,
        In c (Pay.steps st)
        /\ st' = Pay.merge st (Pay.step_update c (Pay.State.currentStep st))).
Proof.
  intros Hwf. cbv zeta. destruct (well_formed_string _ Hwf) as (s & Hs & _).
  destruct (handle_cases e w s Hs)
    as [[_ Hst] | [(u & Hu & _ & Hst) | [(c & Hc & _ & Hst)
        | [(props & values & p & _ & _ & _ & _ & Hst)
          | (props & prevProps & prevState & ->)]]]].
  - now left.
  - right; left. now exists u.
  - right; right. exists c. rewrite Hs. now split.
  - now left.
  - cbn [Pay.handle].
    destruct (componentDidUpdate_cases props prevProps prevState w)
      as (l0 & lu & fields & _ & _ & [[_ Hst] | (u & Hu & _ & Hst)]).
    + now left.
    + right; left. now exists u.
Qed.

(** X1.  In every state the form can reach, the two flags are never both
    set, a decoded invoice is in the state exactly when [isLn] is set, and
    the invoice is null when [isOnchain] is set. *)
Theorem classification_invariant w :
  Pay.reachable w ->
  let st := Pay.state w in
  ~ (Pay.is_set (Pay.State.isLn st) /\ Pay.is_set (Pay.State.isOnchain st))
  /\ (Pay.is_set (Pay.State.isLn st) <-> Pay.invoice_present st)
  /\ (Pay.is_set (Pay.State.isOnchain st) ->
      Pay.State.invoice st = Pay.State.InvNull).
Proof.
  intros Hreach. cbv zeta.
  destruct (reachable_well_formed w Hreach) as [_ Hcl].
  split; [now apply classified_at_most_one|]. split; [split|].
  - intros Hset. now apply classified_isLn.
  - intros [i Hi]. unfold Pay.is_set.
    destruct Hcl as [(-> & _) | [(_ & _ & Hn) | (_ & _ & [Hn | Hn])]];
      [reflexivity | congruence..].
  - intros Hset. now apply classified_isOnchain.
Qed.

Lemma handle_previous_ok (e : Pay.event) w :
  Pay.well_formed (Pay.state w) ->
  Pay.previous_ok (Pay.state w) ->
  Pay.previous_ok (Pay.state (Pay.after (Pay.handle e) w)).
Proof.
  intros Hwf Hp.
  destruct (handle_state e w Hwf) as [-> | [(u & Hu & ->) | (c & _ & ->)]].
  - exact Hp.
  - destruct Hu as [-> | [-> | [i ->]]]; exact Hp.
  - right. exact (proj1 Hwf).
Qed.

Lemma reachable_previous_ok w :
  Pay.reachable w -> Pay.previous_ok (Pay.state w).
Proof.
  induction 1 as [f | w e Hreach IH].
  - now left.
  - apply handle_previous_ok; [now apply reachable_well_formed | exact IH].
Qed.

(** X2.  The [previousStep] field is null or the name of a step; an event
    keeps it or sets it to the step that was current; and once it is set it
    is never null again. *)
Theorem previousStep_field (e : Pay.event) w :
  Pay.reachable w ->
  let st := Pay.state w in
  let st' := Pay.state (Pay.after (Pay.handle e) w) in
  (Pay.State.previousStep st = VNull \/ Pay.step_name (Pay.State.previousStep st))
  /\ (Pay.State.previousStep st' = Pay.State.previousStep st
      \/ Pay.State.previousStep st' = Pay.State.currentStep st)
  /\ (Pay.State.previousStep st <> VNull -> Pay.State.previousStep st' <> VNull).
Proof.
  intros Hreach. cbv zeta.
  pose proof (reachable_well_formed w Hreach) as Hwf.
  split; [exact (reachable_previous_ok w Hreach)|].
  destruct (handle_state e w Hwf) as [-> | [(u & Hu & ->) | (c & _ & ->)]].
  - split; [now left | tauto].
  - destruct Hu as [-> | [-> | [i ->]]]; (split; [now left | tauto]).
  - split; [now right|]. intros _. cbn.
    destruct (proj1 Hwf) as [-> | [-> | ->]]; discriminate.
Qed.

(** X3.  [handleChange] classifies the payment request only before the
    wizard first moved: once the [previousStep] field is set, whatever
    events follow, [handleChange] changes nothing. *)
Theorem handleChange_inert props (formState : form.State) (es : list Pay.event) w :
  Pay.reachable w ->
  Pay.State.previousStep (Pay.state w) <> VNull ->
  Pay.after (Pay.handleChange props formState) (Pay.run es w) = Pay.run es w.
Proof.
  intros Hreach Hset.
  assert (Hrun : Pay.reachable (Pay.run es w)
                 /\ Pay.State.previousStep (Pay.state (Pay.run es w)) <> VNull).
  { revert w Hreach Hset. induction es as [|e es IH]; intros w Hreach Hset;
      cbn [Pay.run]; [now split|].
    apply IH; [now apply Pay.reachable_handle|].
    pose proof (reachable_well_formed w Hreach) as Hwf.
    destruct (handle_state e w Hwf) as [-> | [(u & Hu & ->) | (c & _ & ->)]].
    - exact Hset.
    - destruct Hu as [-> | [-> | [i ->]]]; exact Hset.
    - cbn. destruct (proj1 Hwf) as [-> | [-> | ->]]; discriminate. }
  destruct Hrun as [Hreach' Hset'].
  unfold Pay.handleChange. rewrite after_bind.
  cbn [Pay.getState fst]. change (Pay.after Pay.getState ?x) with x.
  destruct (reachable_previous_ok _ Hreach') as [Hn | Hn]; [congruence|].
  assert (Ht : JS.truthy (Pay.State.previousStep (Pay.state (Pay.run es w))) = true).
  { destruct Hn as [-> | [-> | ->]]; reflexivity. }
  rewrite Ht. cbn [negb]. now rewrite andb_false_r.
Qed.

(** *** What the form calls, and when *)

(** The calls of an update that are neither [setState] nor calls of the
    form are those of its last two blocks. *)
Lemma componentDidUpdate_filter (P : Pay.effect -> bool) props prevProps prevState w :
  P Pay.formApi_reset = false ->
  (forall field v, P (Pay.formApi_setValue field v) = false) ->
  (forall field b, P (Pay.formApi_setTouched field b) = false) ->
  (forall u, P (Pay.setState u) = false) ->
  let st := Pay.state w in
  List.filter P (Pay.trace (Pay.after (Pay.componentDidUpdate props prevProps prevState) w))
  = List.filter P (Pay.trace w)
    ++ List.filter P
         ((if JS.truthy (Pay.State.isOnchain st)
              && JS.strict_neq (Pay.State.isOnchain st) (Pay.State.isOnchain prevState)
           then [Pay.formApi_submitForm] else [])
          ++ (if JS.truthy (Pay.State.isLn st)
                 && JS.strict_neq (Pay.State.isLn st) (Pay.State.isLn prevState)
              then
                Pay.formApi_submitForm
                :: match Pay.State.invoice st with
                   | Pay.State.InvObject invoice =>
                       [Pay.queryRoutes (crypto.payeeNodeKey invoice)
                          (crypto.satoshis invoice)]
                   | _ => []
                   end
              else [])).
Proof.
  intros Hreset Hvalue Htouched Hstate. cbv zeta.
  destruct (componentDidUpdate_cases props prevProps prevState w)
    as (l0 & lu & fields & Ht & Hl0 & Hlu).
  cbv zeta in Ht. rewrite Ht, !List.filter_app.
  rewrite (filter_setTouched P fields Htouched).
  assert (Hf0 : List.filter P l0 = []).
  { destruct Hl0 as [-> | ->]; cbn; [reflexivity|]. now rewrite Hreset, Hvalue. }
  assert (Hfu : List.filter P lu = []).
  { destruct Hlu as [[-> _] | (u & _ & -> & _)]; cbn; [reflexivity|].
    now rewrite Hstate. }
  now rewrite Hf0, Hfu.
Qed.

(** X4.  An event adds at most one payment ([sendCoins] or [payInvoice])
    to the calls, and only a submission of the form on the summary step
    adds one. *)
Theorem payment_only_on_summary_submit (e : Pay.event) w :
  Pay.reachable w ->
  exists l,
    List.filter Pay.is_payment (Pay.trace (Pay.after (Pay.handle e) w))
    = List.filter Pay.is_payment (Pay.trace w) ++ l
    /\ (l = []
        \/ exists props values p,
             l = [p] /\ e = Pay.Submit props values
             /\ Pay.State.currentStep (Pay.state w) = VStr "summary").
Proof.
  intros Hreach.
  destruct (well_formed_string _ (reachable_well_formed w Hreach)) as (s & Hs & _).
  destruct (handle_cases e w s Hs)
    as [[Ht _] | [(u & _ & Ht & _) | [(c & _ & Ht & _)
        | [(props & values & p & He & -> & Hp & Ht & _)
          | (props & prevProps & prevState & ->)]]]].
  - exists []. rewrite Ht, app_nil_r. split; [reflexivity | now left].
  - exists []. rewrite Ht, List.filter_app. split; [reflexivity | now left].
  - exists []. rewrite Ht, List.filter_app. split; [reflexivity | now left].
  - exists [p]. rewrite Ht, List.filter_app. cbn. rewrite Hp.
    split; [reflexivity|]. right. now exists props, values, p.
  - exists []. cbn [Pay.handle].
    rewrite (componentDidUpdate_filter Pay.is_payment) by reflexivity.
    split; [|now left]. f_equal.
    destruct (_ && _), (_ && _); try reflexivity;
      destruct (Pay.State.invoice (Pay.state w)); reflexivity.
Qed.

(** X5.  An event adds at most one call of [queryRoutes], and only an
    update of the component in which [isLn] is set, was not set before and
    the state holds a decoded invoice adds one: for that invoice. *)
Theorem queryRoutes_only_on_update (e : Pay.event) w :
  Pay.reachable w ->
  exists l,
    List.filter Pay.is_queryRoutes (Pay.trace (Pay.after (Pay.handle e) w))
    = List.filter Pay.is_queryRoutes (Pay.trace w) ++ l
    /\ (l = []
        \/ exists props prevProps prevState invoice,
             e = Pay.DidUpdate props prevProps prevState
             /\ Pay.State.isLn (Pay.state w) = VBool true
             /\ Pay.State.isLn prevState <> VBool true
             /\ Pay.State.invoice (Pay.state w) = Pay.State.InvObject invoice
             /\ l = [Pay.queryRoutes (crypto.payeeNodeKey invoice)
                       (crypto.satoshis invoice)]).
Proof.
  intros Hreach.
  pose proof (reachable_well_formed w Hreach) as Hwf.
  destruct (well_formed_string _ Hwf) as (s & Hs & _).
  destruct (handle_cases e w s Hs)
    as [[Ht _] | [(u & _ & Ht & _) | [(c & _ & Ht & _)
        | [(props & values & p & He & -> & Hp & Ht & _)
          | (props & prevProps & prevState & ->)]]]].
  - exists []. rewrite Ht, app_nil_r. split; [reflexivity | now left].
  - exists []. rewrite Ht, List.filter_app. split; [reflexivity | now left].
  - exists []. rewrite Ht, List.filter_app. split; [reflexivity | now left].
  - exists []. rewrite Ht, List.filter_app.
    destruct p; try discriminate Hp; (split; [reflexivity | now left]).
  - cbn [Pay.handle].
    rewrite (componentDidUpdate_filter Pay.is_queryRoutes) by reflexivity.
    eexists. split; [reflexivity|].
    destruct (JS.truthy (Pay.State.isOnchain (Pay.state w)) && _);
      destruct (JS.truthy (Pay.State.isLn (Pay.state w)) && _) eqn:Hln;
      cbn; try (now left);
      destruct (Pay.State.invoice (Pay.state w)) as [| |invoice] eqn:Hinv;
      cbn; try (now left);
      right; exists props, prevProps, prevState, invoice;
      apply andb_true_iff in Hln; destruct Hln as [Hset Hneq];
      destruct (classified_isLn _ (proj2 Hwf) Hset) as (Htrue & _);
      (split; [reflexivity|]); (split; [exact Htrue|]);
      (split; [|now split]);
      intros Heq; rewrite Htrue, Heq in Hneq; discriminate.
Qed.

(** X6.  In an update where [isOnchain] went from unset to set,
    [componentDidUpdate] submits the form exactly once and queries no
    route. *)
Theorem componentDidUpdate_onchain props prevProps prevState w :
  Pay.reachable w ->
  ~ Pay.is_set (Pay.State.isOnchain prevState) ->
  Pay.is_set (Pay.State.isOnchain (Pay.state w)) ->
  let w' := Pay.after (Pay.componentDidUpdate props prevProps prevState) w in
  List.filter Pay.is_submitForm (Pay.trace w')
  = List.filter Pay.is_submitForm (Pay.trace w) ++ [Pay.formApi_submitForm]
  /\ List.filter Pay.is_queryRoutes (Pay.trace w')
     = List.filter Pay.is_queryRoutes (Pay.trace w).
Proof.
  intros Hreach Hprev Hset. cbv zeta.
  destruct (reachable_well_formed w Hreach) as [_ Hcl].
  destruct (classified_isOnchain _ Hcl Hset) as (Hln & Hon & _).
  rewrite (componentDidUpdate_filter Pay.is_submitForm) by reflexivity.
  rewrite (componentDidUpdate_filter Pay.is_queryRoutes) by reflexivity.
  rewrite Hln, Hon. cbn [JS.truthy andb app].
  assert (Hneq : JS.strict_neq (VBool true) (Pay.State.isOnchain prevState) = true).
  { unfold Pay.is_set in Hprev.
    destruct (Pay.State.isOnchain prevState) as [| |[|]| |]; cbn in *; congruence. }
  rewrite Hneq. cbn. now rewrite app_nil_r.
Qed.

(** X7.  An update in which neither the [initialPayReq] prop, nor the
    current step, nor a flag changed: [componentDidUpdate] does nothing, so
    an update never follows from itself. *)
Theorem componentDidUpdate_quiescent props prevProps prevState w :
  Pay.reachable w ->
  JS.truthy (Pay.Props.initialPayReq props) = false
  \/ JS.strict_eq (Pay.Props.initialPayReq props) (Pay.Props.initialPayReq prevProps)
     = true ->
  Pay.State.currentStep prevState = Pay.State.currentStep (Pay.state w) ->
  Pay.State.isLn prevState = Pay.State.isLn (Pay.state w) ->
  Pay.State.isOnchain prevState = Pay.State.isOnchain (Pay.state w) ->
  Pay.after (Pay.componentDidUpdate props prevProps prevState) w = w.
Proof.
  intros Hreach Hprop Hstep Hln Hon.
  pose proof (reachable_well_formed w Hreach) as [Hname Hcl].
  unfold Pay.componentDidUpdate. rewrite after_bind.
  cbn [Pay.getState fst]. change (Pay.after Pay.getState w) with w.
  rewrite Hstep, Hln, Hon.
  assert (Hc1 : JS.truthy (Pay.Props.initialPayReq props)
               && JS.strict_neq (Pay.Props.initialPayReq props)
                    (Pay.Props.initialPayReq prevProps) = false).
  { unfold JS.strict_neq. destruct Hprop as [-> | ->]; [reflexivity|].
    now rewrite andb_false_r. }
  assert (Hc2 : JS.strict_neq (Pay.State.currentStep (Pay.state w))
                 (Pay.State.currentStep (Pay.state w)) = false).
  { destruct Hname as [-> | [-> | ->]]; reflexivity. }
  assert (Hc3 : JS.strict_neq (Pay.State.isOnchain (Pay.state w))
                 (Pay.State.isOnchain (Pay.state w)) = false
               /\ JS.strict_neq (Pay.State.isLn (Pay.state w))
                    (Pay.State.isLn (Pay.state w)) = false).
  { destruct Hcl as [(-> & -> & _) | [(-> & -> & _) | (-> & -> & _)]];
      split; reflexivity. }
  destruct Hc3 as [Hc3 Hc4].
  rewrite Hc1, Hc2, Hc3, Hc4, !andb_false_r. reflexivity.
Qed.

(** X8.  Without a new [initialPayReq], the update that brings the wizard
    to the address step from another step marks every touched field of the
    form untouched, in the order of the fields, and no other update marks
    any. *)
Theorem componentDidUpdate_untouches props prevProps prevState w :
  JS.truthy (Pay.Props.initialPayReq props)
  && JS.strict_neq (Pay.Props.initialPayReq props) (Pay.Props.initialPayReq prevProps)
  = false ->
  let st := Pay.state w in
  let w' := Pay.after (Pay.componentDidUpdate props prevProps prevState) w in
  List.filter Pay.is_setTouched (Pay.trace w')
  = List.filter Pay.is_setTouched (Pay.trace w)
    ++ (if JS.strict_neq (Pay.State.currentStep st) (Pay.State.currentStep prevState)
           && JS.strict_eq (Pay.State.currentStep st) (VStr "address")
        then
          map (fun field => Pay.formApi_setTouched field false)
            (map fst (form.touched (form.getState (Pay.formApi w))))
        else []).
Proof.
  intros Hsame. cbv zeta.
  destruct (componentDidUpdate_shape props prevProps prevState w) as [_ Ht].
  cbv zeta in Ht. rewrite Hsame in Ht. rewrite Ht, !List.filter_app. f_equal.
  clear Hsame Ht.
  assert (Hall : forall fields : list string,
            List.filter Pay.is_setTouched
              (map (fun field => Pay.formApi_setTouched field false) fields)
            = map (fun field => Pay.formApi_setTouched field false) fields).
  { induction fields as [|x l IH]; cbn; [reflexivity | now rewrite IH]. }
  rewrite Hall.
  destruct (JS.truthy (Pay.State.isOnchain (Pay.state w)) && _);
    destruct (JS.truthy (Pay.State.isLn (Pay.state w)) && _);
    try destruct (Pay.State.invoice (Pay.state w));
    cbn [List.filter Pay.is_setTouched app]; rewrite app_nil_r;
    destruct (JS.strict_neq (Pay.State.currentStep (Pay.state w)) _ && _);
    reflexivity.
Qed.

(** *** Moving through the wizard *)

Lemma nextStep_state w (s : string) :
  Pay.State.currentStep (Pay.state w) = VStr s ->
  Pay.state (Pay.after Pay.nextStep w)
  = Pay.merge (Pay.state w)
      (Pay.step_update
         (JS.get (Pay.steps (Pay.state w))
            (Z.min (JS.indexOf (Pay.steps (Pay.state w)) (VStr s) + 1)
               (JS.length (Pay.steps (Pay.state w)) - 1)))
         (VStr s)).
Proof. intros Hs. now rewrite (after_nextStep w s Hs). Qed.

Lemma previousStep_state w (s : string) :
  Pay.State.currentStep (Pay.state w) = VStr s ->
  Pay.state (Pay.after Pay.previousStep w)
  = Pay.merge (Pay.state w)
      (Pay.step_update
         (JS.get (Pay.steps (Pay.state w))
            (Z.max (JS.indexOf (Pay.steps (Pay.state w)) (VStr s) - 1) 0))
         (VStr s)).
Proof. intros Hs. now rewrite (after_previousStep w s Hs). Qed.

(** Two neighbours in a list of steps. *)
Lemma adjacent_steps st (c c' : value) :
  Pay.adjacent c c' (Pay.steps st) ->
  (Pay.steps st = [VStr "address"; VStr "summary"]
   /\ c = VStr "address" /\ c' = VStr "summary")
  \/ (Pay.steps st = [VStr "address"; VStr "amount"; VStr "summary"]
      /\ ((c = VStr "address" /\ c' = VStr "amount")
          \/ (c = VStr "amount" /\ c' = VStr "summary"))).
Proof.
  intros (l1 & l2 & Hl).
  destruct (steps_cases st) as [[_ Hs] | [(_ & _ & Hs) | (_ & _ & Hs)]];
    rewrite Hs in Hl |- *.
  - left. destruct l1 as [|x [|y l1]]; cbn in Hl.
    + injection Hl as <- <- _. now repeat split.
    + injection Hl as _ _ Hnil. discriminate Hnil.
    + injection Hl as _ _ Hnil. destruct l1; discriminate Hnil.
  - right. split; [reflexivity|]. destruct l1 as [|x [|y [|z l1]]]; cbn in Hl.
    + injection Hl as <- <- _. left. now split.
    + injection Hl as _ <- <- _. right. now split.
    + injection Hl as _ _ _ Hnil. discriminate Hnil.
    + injection Hl as _ _ _ Hnil. destruct l1; discriminate Hnil.
  - destruct l1 as [|x l1]; cbn in Hl.
    + injection Hl as _ Hnil. discriminate Hnil.
    + injection Hl as _ Hnil. destruct l1; discriminate Hnil.
Qed.


(** X9.  When [c'] comes right after [c] in the enabled steps: from [c],
    [nextStep] moves to [c'] and records [c] as the previous step, and
    [previousStep] then moves back to [c]; from [c'], [previousStep] moves
    to [c], and [nextStep] then moves forward to [c'] again. *)
Theorem navigation_adjacent w (c c' : value) :
  Pay.adjacent c c' (Pay.steps (Pay.state w)) ->
  (Pay.State.currentStep (Pay.state w) = c ->
   let w1 := Pay.after Pay.nextStep w in
   Pay.State.currentStep (Pay.state w1) = c'
   /\ Pay.State.previousStep (Pay.state w1) = c
   /\ Pay.State.currentStep (Pay.state (Pay.after Pay.previousStep w1)) = c)
  /\ (Pay.State.currentStep (Pay.state w) = c' ->
      let w1 := Pay.after Pay.previousStep w in
      Pay.State.currentStep (Pay.state w1) = c
      /\ Pay.State.previousStep (Pay.state w1) = c'
      /\ Pay.State.currentStep (Pay.state (Pay.after Pay.nextStep w1)) = c').
Proof.
  intros Hadj.
  destruct (adjacent_steps _ c c' Hadj)
    as [(Hl & -> & ->) | (Hl & [[-> ->] | [-> ->]])];
    (split; intros Hs; cbv zeta).
  all: match goal with |- ?A /\ _ => assert (Hs1 : A) end.
  all: try (rewrite (nextStep_state w _ Hs), Hl; reflexivity).
  all: try (rewrite (previousStep_state w _ Hs), Hl; reflexivity).
  all: split; [exact Hs1|].
  all: split;
    [first [rewrite (nextStep_state w _ Hs) | rewrite (previousStep_state w _ Hs)];
     reflexivity|].
  all: first
    [ rewrite (previousStep_state _ _ Hs1), (nextStep_state w _ Hs)
    | rewrite (nextStep_state _ _ Hs1), (previousStep_state w _ Hs) ].
  all: change (Pay.steps (Pay.merge (Pay.state w) ?u)) with (Pay.steps (Pay.state w)).
  all: rewrite Hl; reflexivity.
Qed.

Lemma indexOf_from_absent (l : list value) (s : string) (i : Z) :
  ~ In (VStr s) l -> JS.indexOf_from l (VStr s) i = -1.
Proof.
  revert i. induction l as [|y l IH]; intros i Hnot; cbn [JS.indexOf_from].
  - reflexivity.
  - destruct (JS.strict_eq y (VStr s)) eqn:Heq.
    + apply strict_eq_VStr in Heq. subst y. contradiction Hnot. now left.
    + apply IH. intros Hin. apply Hnot. now right.
Qed.

Lemma steps_first st : JS.get (Pay.steps st) 0 = VStr "address".
Proof.
  destruct (steps_cases st) as [[_ ->] | [(_ & _ & ->) | (_ & _ & ->)]];
    reflexivity.
Qed.

(** X10.  A current step that is not among the enabled steps (the
    classification changed under it): [nextStep] and [previousStep] both
    go to the address step, and record the step that was current. *)
Theorem step_outside_enabled w (s : string) :
  Pay.State.currentStep (Pay.state w) = VStr s ->
  ~ In (VStr s) (Pay.steps (Pay.state w)) ->
  let next := Pay.state (Pay.after Pay.nextStep w) in
  let prev := Pay.state (Pay.after Pay.previousStep w) in
  Pay.State.currentStep next = VStr "address"
  /\ Pay.State.previousStep next = VStr s
  /\ Pay.State.currentStep prev = VStr "address"
  /\ Pay.State.previousStep prev = VStr s.
Proof.
  intros Hs Hnot. cbv zeta.
  rewrite (nextStep_state w s Hs), (previousStep_state w s Hs).
  unfold JS.indexOf. rewrite (indexOf_from_absent _ s 0 Hnot).
  pose proof (steps_nonempty (Pay.state w)) as Hlen.
  replace (Z.min (-1 + 1) (JS.length (Pay.steps (Pay.state w)) - 1)) with 0 by lia.
  replace (Z.max (-1 - 1) 0) with 0 by lia.
  cbn [Pay.merge Pay.step_update Pay.State.currentStep Pay.State.previousStep
       Pay.Update.currentStep Pay.Update.previousStep default from_option].
  rewrite steps_first. now repeat split.
Qed.

(** X11.  A run of [handlePayReqChange] keeps the two step fields and the
    form, and adds nothing to the calls but at most one [setState]: it
    never moves the wizard. *)
Theorem handlePayReqChange_frame props w :
  let w' := Pay.after (Pay.handlePayReqChange props) w in
  Pay.State.currentStep (Pay.state w') = Pay.State.currentStep (Pay.state w)
  /\ Pay.State.previousStep (Pay.state w') = Pay.State.previousStep (Pay.state w)
  /\ Pay.formApi w' = Pay.formApi w
  /\ (Pay.trace w' = Pay.trace w
      \/ exists u, Pay.trace w' = Pay.trace w ++ [Pay.setState u]).
Proof.
  cbv zeta.
  destruct (handlePayReqChange_cases props w)
    as [(_ & _ & ->) | [(_ & i & _ & ->) | [(_ & _ & ->) | (_ & _ & ->)]]].
  - repeat split. now left.
  - repeat split. right. now eexists.
  - repeat split. right. now eexists.
  - repeat split. right. now eexists.
Qed.

(** *** No payment before a classification *)

Lemma payments_guarded_app (seen : bool) (l l' : list Pay.effect) :
  Pay.payments_guarded seen (l ++ l')
  = Pay.payments_guarded seen l
    && Pay.payments_guarded (seen || existsb Pay.sets_flag l) l'.
Proof.
  revert seen. induction l as [|e l IH]; intros seen; cbn [app Pay.payments_guarded existsb].
  - now rewrite orb_false_r.
  - rewrite IH, <- andb_assoc, orb_assoc. reflexivity.
Qed.

Lemma payments_guarded_none (seen : bool) (l : list Pay.effect) :
  List.filter Pay.is_payment l = [] -> Pay.payments_guarded seen l = true.
Proof.
  revert seen. induction l as [|e l IH]; intros seen Hnone; cbn in *; [reflexivity|].
  destruct (Pay.is_payment e); [discriminate|]. now apply IH.
Qed.

(** X12.  In the calls of a mounted form, read from the first one, every
    payment ([sendCoins] or [payInvoice]) comes after a [setState] that set
    [isLn] or [isOnchain]: nothing is paid before a payment request was
    classified.  And as long as no such [setState] was made, the wizard is
    on the address step with both flags null. *)
Theorem no_payment_before_classification w :
  Pay.reachable w ->
  Pay.payments_guarded false (Pay.trace w) = true
  /\ (existsb Pay.sets_flag (Pay.trace w) = false ->
      Pay.State.currentStep (Pay.state w) = VStr "address"
      /\ Pay.State.isLn (Pay.state w) = VNull
      /\ Pay.State.isOnchain (Pay.state w) = VNull).
Proof.
  induction 1 as [f | w e Hreach [IHg IHs]].
  - split; [reflexivity|]. intros _. now repeat split.
  - destruct (well_formed_string _ (reachable_well_formed w Hreach)) as (s & Hs & _).
    destruct (handle_cases e w s Hs)
      as [[Ht Hst] | [(u & Hu & Ht & Hst) | [(c & Hc & Ht & Hst)
          | [(props & values & p & He & -> & Hp & Ht & Hst)
            | (props & prevProps & prevState & ->)]]]].
    + rewrite Ht, Hst. now split.
    + rewrite Ht, Hst, payments_guarded_app, existsb_app, IHg. split.
      * destruct Hu as [-> | [-> | [i ->]]]; reflexivity.
      * intros Hno. apply orb_false_iff in Hno. destruct Hno as [Hno Hu'].
        destruct (IHs Hno) as (Hstep & _).
        destruct Hu as [-> | [-> | [i ->]]]; try discriminate Hu'.
        now repeat split.
    + rewrite Ht, Hst, payments_guarded_app, existsb_app, IHg.
      split; [reflexivity|].
      intros Hno. apply orb_false_iff in Hno. destruct Hno as [Hno _].
      destruct (IHs Hno) as (Hstep & Hln & Hon).
      assert (Hl : Pay.steps (Pay.state w) = [VStr "address"]).
      { unfold Pay.steps. now rewrite Hln, Hon. }
      rewrite Hl in Hc. destruct Hc as [<- | []]. now repeat split.
    + rewrite Ht, Hst, payments_guarded_app, existsb_app, IHg.
      destruct (existsb Pay.sets_flag (Pay.trace w)) eqn:Hseen.
      * cbn. rewrite Hp. split; [reflexivity | discriminate].
      * destruct (IHs eq_refl) as (Hstep & _). congruence.
    + cbn [Pay.handle].
      destruct (componentDidUpdate_cases props prevProps prevState w)
        as (l0 & lu & fields & Ht & Hl0 & Hlu).
      cbv zeta in Ht. rewrite Ht.
      set (tail := map _ fields ++ _ ++ _).
      assert (Htail : List.filter Pay.is_payment tail = []).
      { subst tail. rewrite !List.filter_app.
        rewrite (filter_setTouched Pay.is_payment fields) by reflexivity.
        destruct (_ && _), (_ && _); try reflexivity;
          destruct (Pay.State.invoice (Pay.state w)); reflexivity. }
      assert (H0' : List.filter Pay.is_payment l0 = [] /\ existsb Pay.sets_flag l0 = false).
      { destruct Hl0 as [-> | ->]; now split. }
      rewrite !payments_guarded_app, !existsb_app, IHg.
      rewrite (payments_guarded_none _ l0 (proj1 H0')), (proj2 H0').
      rewrite (payments_guarded_none _ tail Htail).
      destruct Hlu as [[-> Hst] | (u & Hu & -> & Hst)].
      * split; [reflexivity|]. rewrite Hst. intros Hno.
        apply orb_false_iff in Hno. now apply IHs.
      * split; [now rewrite andb_true_r|]. rewrite Hst. intros Hno.
        apply orb_false_iff in Hno. destruct Hno as [Hno Hrest].
        apply orb_false_iff in Hrest. destruct Hrest as [_ Hrest].
        apply orb_false_iff in Hrest. destruct Hrest as [Hu' _].
        destruct (IHs Hno) as (Hstep & _).
        destruct Hu as [-> | [-> | [i ->]]]; try discriminate Hu'.
        now repeat split.
Qed.

(** *** What is rendered *)




(** X15.  [renderSummary], given what [formApi.getState()] returns.  With
    a null [routes] prop it throws.  With a routes list the summary is shown
    exactly on the summary step; it is the on-chain summary exactly when the
    header type is onchain, and the Lightning summary in every other case:
    when the header type is offchain, and also when it is null, no flag
    being set.  The on-chain summary shows the payment request of the form,
    and its amount is the amount [hasEnoughFunds] compares with the wallet
    balance when the render prop carries the same form state. *)
Theorem summary_matches_header props w (formState : form.State) :
  Pay.reachable w ->
  let st := Pay.state w in
  let header := Pay.headerType (Pay.render props st formState) in
  let apiState := form.getState (Pay.formApi w) in
  (Pay.Props.routes props = None -> Pay.renderSummary props st apiState = None)
  /\ (Pay.Props.routes props <> None ->
      exists view,
        Pay.renderSummary props st apiState = Some view
        /\ (Pay.summary_items view = true
            <-> Pay.State.currentStep st = VStr "summary")
        /\ (header = VStr "onchain"
            <-> exists amount address,
                  Pay.summary_content view = Pay.PaySummaryOnChain amount address)
        /\ (header = VStr "offchain" \/ header = VNull
            <-> exists minFee maxFee payReq querying,
                  Pay.summary_content view
                  = Pay.PaySummaryLightning minFee maxFee payReq querying)
        /\ (forall amount address,
              Pay.summary_content view = Pay.PaySummaryOnChain amount address ->
              address = form.payReq (form.values apiState)
              /\ (formState = apiState ->
                  Pay.hasEnoughFunds props st formState
                  = JS.le amount (Pay.Props.walletBalance props)))).
Proof.
  intros Hreach. cbv zeta.
  destruct (reachable_well_formed w Hreach) as [_ Hcl].
  unfold Pay.renderSummary. split; [intros ->; reflexivity|].
  destruct (Pay.Props.routes props) as [routes|]; [intros _ | congruence].
  eexists. split; [reflexivity|].
  cbn [Pay.summary_items Pay.summary_content Pay.render Pay.headerType].
  split; [apply strict_eq_VStr|].
  unfold Pay.hasEnoughFunds.
  destruct Hcl as [(Hln & Hon & [i Hi]) | [(Hln & Hon & Hi) | (Hln & Hon & Hi)]];
    rewrite Hln, Hon; cbn [JS.truthy].
  - split; [split; [discriminate | intros (? & ? & ?); discriminate]|].
    split; [split; [intros _; now eexists _, _, _, _ | intros _; now left]|].
    intros ? ? ?; discriminate.
  - split; [split; [intros _; now eexists _, _ | reflexivity]|].
    split; [split; [intros [? | ?]; discriminate
                   | intros (? & ? & ? & ? & ?); discriminate]|].
    intros amount address Heq. injection Heq as <- <-.
    split; [reflexivity|]. now intros ->.
  - split; [split; [discriminate | intros (? & ? & ?); discriminate]|].
    split; [split; [intros _; now eexists _, _, _, _ | intros _; now right]|].
    intros ? ? ?; discriminate.
Qed.

(** X16.  The amount fields are never rendered for a Lightning payment;
    when they are rendered [isOnchain] is set, they are shown exactly on
    the amount step, removed exactly on the summary step, and their inputs
    are disabled exactly on the address step. *)
Theorem amount_fields w :
  Pay.reachable w ->
  let st := Pay.state w in
  (Pay.is_set (Pay.State.isLn st) -> Pay.renderAmountFields st = None)
  /\ (forall fields,
        Pay.renderAmountFields st = Some fields ->
        Pay.is_set (Pay.State.isOnchain st)
        /\ (Pay.amount_state fields = "show"
            <-> Pay.State.currentStep st = VStr "amount")
        /\ (Pay.amount_state fields = "hide"
            <-> Pay.State.currentStep st = VStr "address")
        /\ (Pay.amount_state fields = "remove"
            <-> Pay.State.currentStep st = VStr "summary")
        /\ (Pay.amount_disabled fields = true
            <-> Pay.State.currentStep st = VStr "address")).
Proof.
  intros Hreach. cbv zeta.
  destruct (reachable_well_formed w Hreach) as [Hname Hcl].
  unfold Pay.renderAmountFields, Pay.is_set. split.
  - intros Hset. destruct (classified_isLn _ Hcl Hset) as (_ & -> & _). reflexivity.
  - intros fields. destruct (JS.truthy (Pay.State.isOnchain (Pay.state w)));
      cbn [negb]; [|discriminate].
    intros Heq. injection Heq as <-. split; [reflexivity|].
    cbn [Pay.amount_state Pay.amount_disabled].
    destruct Hname as [-> | [-> | ->]]; cbn;
      repeat split; intros; congruence.
Qed.

(** X17.  The help text is left out exactly when the form has an
    [initialPayReq] and the wizard has not moved yet; once the wizard has
    moved it is always rendered, and shown exactly on the address step. *)
Theorem help_text props w :
  Pay.reachable w ->
  let st := Pay.state w in
  (Pay.renderHelpText props st = None
   <-> JS.truthy (Pay.Props.initialPayReq props) = true
       /\ Pay.State.previousStep st = VNull)
  /\ (Pay.State.previousStep st <> VNull ->
      exists items,
        Pay.renderHelpText props st = Some items
        /\ (items = true <-> Pay.State.currentStep st = VStr "address")).
Proof.
  intros Hreach. cbv zeta. unfold Pay.renderHelpText.
  destruct (reachable_previous_ok w Hreach) as [Hp | Hp].
  - rewrite Hp. cbn [JS.truthy negb]. rewrite andb_true_r.
    split; [|congruence].
    destruct (JS.truthy (Pay.Props.initialPayReq props)); split;
      try discriminate; try tauto. intros [Hf _]. discriminate.
  - assert (Ht : JS.truthy (Pay.State.previousStep (Pay.state w)) = true
                 /\ Pay.State.previousStep (Pay.state w) <> VNull).
    { destruct Hp as [-> | [-> | ->]]; split; (reflexivity || discriminate). }
    destruct Ht as [Ht Hn]. rewrite Ht. cbn [negb]. rewrite andb_false_r.
    split; [split; [discriminate | tauto]|].
    intros _. eexists. split; [reflexivity|]. apply strict_eq_VStr.
Qed.

(** X18.  The three panes of the form: the payment request field is tall
    exactly on the address step, the amount fields are shown exactly on the
    amount step of an on-chain payment, and, with a routes list, the summary
    is shown exactly on the summary step; so no two panes are active
    together.  A pane is active unless the wizard is on the amount step
    while [isOnchain] is not set. *)
Theorem one_pane props w (formState : form.State) :
  Pay.reachable w ->
  Pay.Props.routes props <> None ->
  let st := Pay.state w in
  let address := Pay.address_state (Pay.renderAddressField props st) = "big" in
  let amount :=
    exists fields,
      Pay.renderAmountFields st = Some fields /\ Pay.amount_state fields = "show" in
  let summary :=
    exists view,
      Pay.renderSummary props st formState = Some view
      /\ Pay.summary_items view = true in
  (address <-> Pay.State.currentStep st = VStr "address")
  /\ (amount <-> Pay.State.currentStep st = VStr "amount"
                 /\ Pay.is_set (Pay.State.isOnchain st))
  /\ (summary <-> Pay.State.currentStep st = VStr "summary")
  /\ ~ (address /\ amount) /\ ~ (address /\ summary) /\ ~ (amount /\ summary)
  /\ (address \/ amount \/ summary
      <-> ~ (Pay.State.currentStep st = VStr "amount"
             /\ ~ Pay.is_set (Pay.State.isOnchain st))).
Proof.
  intros Hreach Hroutes. cbv zeta.
  destruct (reachable_well_formed w Hreach) as [Hname _].
  assert (Ha : Pay.address_state (Pay.renderAddressField props (Pay.state w)) = "big"
               <-> Pay.State.currentStep (Pay.state w) = VStr "address").
  { cbn [Pay.renderAddressField Pay.address_state].
    destruct Hname as [-> | [-> | ->]]; cbn; split; congruence. }
  assert (Hm : (exists fields,
                  Pay.renderAmountFields (Pay.state w) = Some fields
                  /\ Pay.amount_state fields = "show")
               <-> Pay.State.currentStep (Pay.state w) = VStr "amount"
                   /\ Pay.is_set (Pay.State.isOnchain (Pay.state w))).
  { unfold Pay.renderAmountFields, Pay.is_set.
    destruct (JS.truthy (Pay.State.isOnchain (Pay.state w))); cbn [negb].
    - split.
      + intros (fields & Heq & Hshow). injection Heq as <-.
        cbn [Pay.amount_state] in Hshow.
        destruct Hname as [Hc | [Hc | Hc]]; rewrite Hc in Hshow |- *;
          cbn in Hshow; (discriminate || now split).
      + intros [Hc _]. eexists. split; [reflexivity|].
        cbn [Pay.amount_state]. now rewrite Hc.
    - split; [intros (? & Heq & _); discriminate | intros [_ Hf]; discriminate]. }
  assert (Hsum : (exists view,
                    Pay.renderSummary props (Pay.state w) formState = Some view
                    /\ Pay.summary_items view = true)
                 <-> Pay.State.currentStep (Pay.state w) = VStr "summary").
  { unfold Pay.renderSummary.
    destruct (Pay.Props.routes props) as [routes|]; [|congruence]. split.
    - intros (view & Heq & Hitems). injection Heq as <-.
      now apply strict_eq_VStr in Hitems.
    - intros Hc. eexists. split; [reflexivity|].
      cbn [Pay.summary_items]. now apply strict_eq_VStr. }
  split; [exact Ha|]. split; [exact Hm|]. split; [exact Hsum|].
  rewrite Ha, Hm, Hsum. unfold Pay.is_set.
  destruct (JS.truthy (Pay.State.isOnchain (Pay.state w)));
    destruct Hname as [-> | [-> | ->]];
    repeat split; try (intros [? ?]; intuition congruence);
    try (intros; intuition congruence).
Qed.

End PayMore.

(** ** Runs on the sample collaborators *)

Import Sample.

Lemma entered_reachable (payReq amount : value) :
  Pay.reachable (entered payReq amount).
Proof. unfold entered. do 2 apply Pay.reachable_handle. apply Pay.reachable_mount. Qed.

Lemma advanced_reachable (n : nat) (payReq amount : value) :
  Pay.reachable (advanced n payReq amount).
Proof.
  induction n as [|n IH]; cbn [advanced].
  - apply entered_reachable.
  - apply Pay.reachable_handle, IH.
Qed.

(** The text "hello" is neither a Lightning invoice nor an on-chain
    address: the classification runs to its [setState] and leaves both
    flags null. *)
Lemma handlePayReqChange_neither_set :
  Pay.trace (entered (VStr "hello") VUndefined) = [Pay.setState Pay.unclassified]
  /\ Pay.State.isLn (Pay.state (entered (VStr "hello") VUndefined)) = VNull
  /\ Pay.State.isOnchain (Pay.state (entered (VStr "hello") VUndefined)) = VNull
  /\ ~ Pay.exactly_one_set (Pay.state (entered (VStr "hello") VUndefined)).
Proof.
  repeat split. intros [[Hset _] | [Hset _]]; vm_compute in Hset; discriminate.
Qed.

Lemma handlePayReqChange_classification_witness :
  (crypto.isLn (VStr "lnbc15u1sample") "bitcoin" "mainnet" = true
   /\ crypto.decodePayReq (VStr "lnbc15u1sample")
      = Some {| crypto.satoshis := VNum 1500; crypto.payeeNodeKey := VStr "03abc" |}
   /\ Pay.State.isLn (Pay.state (entered (VStr "lnbc15u1sample") VUndefined)) = VBool true
   /\ Pay.State.isOnchain (Pay.state (entered (VStr "lnbc15u1sample") VUndefined)) = VNull
   /\ Pay.State.invoice (Pay.state (entered (VStr "lnbc15u1sample") VUndefined))
      = Pay.State.InvObject
          {| crypto.satoshis := VNum 1500; crypto.payeeNodeKey := VStr "03abc" |})
  /\ (crypto.isLn (VStr "bc1qxyz") "bitcoin" "mainnet" = false
      /\ crypto.isOnchain (VStr "bc1qxyz") "bitcoin" "mainnet" = true
      /\ Pay.State.isLn (Pay.state (entered (VStr "bc1qxyz") (VNum 5))) = VNull
      /\ Pay.State.isOnchain (Pay.state (entered (VStr "bc1qxyz") (VNum 5))) = VBool true
      /\ Pay.State.invoice (Pay.state (entered (VStr "bc1qxyz") (VNum 5)))
         = Pay.State.InvNull)
  /\ (crypto.isLn (VStr "hello") "bitcoin" "mainnet" = false
      /\ crypto.isOnchain (VStr "hello") "bitcoin" "mainnet" = false
      /\ Pay.State.isLn (Pay.state (entered (VStr "hello") VUndefined)) = VNull
      /\ Pay.State.isOnchain (Pay.state (entered (VStr "hello") VUndefined)) = VNull
      /\ Pay.State.invoice (Pay.state (entered (VStr "hello") VUndefined))
         = Pay.State.InvNull)
  /\ ~ (Pay.is_set (Pay.State.isLn (Pay.state (entered (VStr "bc1qxyz") (VNum 5))))
        /\ Pay.is_set (Pay.State.isOnchain (Pay.state (entered (VStr "bc1qxyz") (VNum 5))))).
Proof.
  split; [|split; [|split]].
  - split; [reflexivity|]. split; [reflexivity|].
    apply (proj1 (handlePayReqChange_classification (props [] false)
             (Pay.after (Pay.handle (Pay.Input (filled (VStr "lnbc15u1sample") VUndefined)))
                (Pay.mount blank)))); reflexivity.
  - split; [reflexivity|]. split; [reflexivity|].
    apply (proj1 (proj2 (handlePayReqChange_classification (props [] false)
             (Pay.after (Pay.handle (Pay.Input (filled (VStr "bc1qxyz") (VNum 5))))
                (Pay.mount blank))))); reflexivity.
  - split; [reflexivity|]. split; [reflexivity|].
    apply (proj1 (proj2 (proj2 (handlePayReqChange_classification (props [] false)
             (Pay.after (Pay.handle (Pay.Input (filled (VStr "hello") VUndefined)))
                (Pay.mount blank)))))); reflexivity.
  - apply (proj2 (proj2 (proj2 (handlePayReqChange_classification (props [] false)
             (Pay.after (Pay.handle (Pay.Input (filled (VStr "bc1qxyz") (VNum 5))))
                (Pay.mount blank)))))). left. reflexivity.
Defined.

Lemma handlePayReqChange_decode_failure_witness :
  crypto.isLn (VStr "lnbcbad") "bitcoin" "mainnet" = true
  /\ crypto.decodePayReq (VStr "lnbcbad") = None
  /\ Pay.after (Pay.handlePayReqChange (props [] false))
       (Pay.after (Pay.handle (Pay.Input (filled (VStr "lnbcbad") VUndefined)))
          (entered (VStr "bc1qxyz") (VNum 5)))
     = Pay.after (Pay.handle (Pay.Input (filled (VStr "lnbcbad") VUndefined)))
         (entered (VStr "bc1qxyz") (VNum 5)).
Proof.
  split; [reflexivity|]. split; [reflexivity|].
  apply (handlePayReqChange_decode_failure (props [] false)
           (Pay.after (Pay.handle (Pay.Input (filled (VStr "lnbcbad") VUndefined)))
              (entered (VStr "bc1qxyz") (VNum 5)))); reflexivity.
Defined.

Lemma steps_and_navigation_witness :
  Pay.reachable (advanced 1 (VStr "bc1qxyz") (VNum 5))
  /\ Pay.steps (Pay.state (advanced 1 (VStr "bc1qxyz") (VNum 5)))
     = [VStr "address"; VStr "amount"; VStr "summary"]
  /\ Pay.State.currentStep (Pay.state (advanced 1 (VStr "bc1qxyz") (VNum 5)))
     = VStr "amount"
  /\ In (Pay.State.currentStep (Pay.state (advanced 2 (VStr "bc1qxyz") (VNum 5))))
       (Pay.steps (Pay.state (advanced 1 (VStr "bc1qxyz") (VNum 5))))
  /\ Pay.step_name
       (Pay.State.currentStep (Pay.state (advanced 1 (VStr "bc1qxyz") (VNum 5)))).
Proof.
  pose proof (steps_and_navigation (advanced 1 (VStr "bc1qxyz") (VNum 5))
                (advanced_reachable 1 (VStr "bc1qxyz") (VNum 5)))
    as (_ & Honchain & _ & [Hnext _] & _ & _ & _ & Hname).
  split; [apply advanced_reachable|].
  split; [apply Honchain; reflexivity|].
  split; [reflexivity|].
  split; [exact Hnext | exact Hname].
Defined.

Lemma step_update_unconditional_witness :
  Pay.reachable (advanced 2 (VStr "bc1qxyz") (VNum 5))
  /\ Pay.State.currentStep (Pay.state (advanced 2 (VStr "bc1qxyz") (VNum 5)))
     = VStr "summary"
  /\ Pay.State.previousStep (Pay.state (advanced 2 (VStr "bc1qxyz") (VNum 5)))
     = VStr "amount"
  /\ List.last (Pay.steps (Pay.state (advanced 2 (VStr "bc1qxyz") (VNum 5)))) VUndefined
     = VStr "summary"
  /\ Pay.State.currentStep
       (Pay.state (Pay.after Pay.nextStep (advanced 2 (VStr "bc1qxyz") (VNum 5))))
     = VStr "summary"
  /\ Pay.State.previousStep
       (Pay.state (Pay.after Pay.nextStep (advanced 2 (VStr "bc1qxyz") (VNum 5))))
     = VStr "summary".
Proof.
  split; [apply advanced_reachable|].
  split; [reflexivity|]. split; [reflexivity|]. split; [reflexivity|].
  apply (step_update_unconditional (advanced 2 (VStr "bc1qxyz") (VNum 5))
           (advanced_reachable 2 (VStr "bc1qxyz") (VNum 5))).
  reflexivity.
Defined.

Lemma componentDidUpdate_queries_routes_witness :
  Pay.reachable (entered (VStr "lnbc15u1sample") VUndefined)
  /\ ~ Pay.is_set (Pay.State.isLn Pay.initialState)
  /\ Pay.is_set (Pay.State.isLn (Pay.state (entered (VStr "lnbc15u1sample") VUndefined)))
  /\ exists l,
       Pay.trace
         (Pay.after
            (Pay.componentDidUpdate (props [] false) (props [] false) Pay.initialState)
            (entered (VStr "lnbc15u1sample") VUndefined))
       = Pay.trace (entered (VStr "lnbc15u1sample") VUndefined) ++ l
       /\ In Pay.formApi_submitForm l
       /\ List.filter Pay.is_queryRoutes l = [Pay.queryRoutes (VStr "03abc") (VNum 1500)].
Proof.
  split; [apply entered_reachable|].
  split; [vm_compute; discriminate|].
  split; [reflexivity|].
  apply (componentDidUpdate_queries_routes (props [] false) (props [] false)
           Pay.initialState (entered (VStr "lnbc15u1sample") VUndefined)
           {| crypto.satoshis := VNum 1500; crypto.payeeNodeKey := VStr "03abc" |}).
  - apply entered_reachable.
  - vm_compute; discriminate.
  - reflexivity.
  - reflexivity.
Defined.




Lemma Wallet_null_without_currency_witness :
  JS.truthy (Wallet.currency (Wallet.ticker
               (wallet_props VUndefined (VStr "120000") (VStr "50000")))) = false
  /\ Wallet.Wallet (wallet_props VUndefined (VStr "120000") (VStr "50000")) = None.
Proof.
  split; [reflexivity|].
  apply (Wallet_null_without_currency
           (wallet_props VUndefined (VStr "120000") (VStr "50000"))).
  reflexivity.
Defined.


(** *** Runs for the further properties *)

Lemma retyped_reachable (w : Pay.World Form) (payReq amount : value) :
  Pay.reachable w -> Pay.reachable (retyped w payReq amount).
Proof. intros Hw. unfold retyped. now do 2 apply Pay.reachable_handle. Qed.

Lemma classification_invariant_witness :
  Pay.reachable (advanced 1 (VStr "lnbc15u1sample") VUndefined)
  /\ Pay.is_set (Pay.State.isLn (Pay.state (advanced 1 (VStr "lnbc15u1sample") VUndefined)))
  /\ Pay.invoice_present (Pay.state (advanced 1 (VStr "lnbc15u1sample") VUndefined))
  /\ ~ Pay.is_set (Pay.State.isOnchain (Pay.state (advanced 1 (VStr "lnbc15u1sample") VUndefined))).
Proof.
  destruct (classification_invariant (advanced 1 (VStr "lnbc15u1sample") VUndefined)
              (advanced_reachable 1 (VStr "lnbc15u1sample") VUndefined))
    as (Hboth & Hiff & _).
  split; [apply advanced_reachable|]. split; [reflexivity|].
  split; [apply Hiff; reflexivity|].
  intros Hon. apply Hboth. split; [reflexivity | exact Hon].
Defined.

Lemma previousStep_field_witness :
  Pay.reachable (entered (VStr "bc1qxyz") (VNum 5))
  /\ Pay.State.previousStep (Pay.state (entered (VStr "bc1qxyz") (VNum 5))) = VNull
  /\ Pay.State.previousStep (Pay.state (advanced 1 (VStr "bc1qxyz") (VNum 5)))
     = VStr "address"
  /\ (Pay.State.previousStep (Pay.state (advanced 1 (VStr "bc1qxyz") (VNum 5))) <> VNull ->
      Pay.State.previousStep (Pay.state (advanced 2 (VStr "bc1qxyz") (VNum 5))) <> VNull).
Proof.
  split; [apply entered_reachable|]. split; [reflexivity|]. split; [reflexivity|].
  apply (previousStep_field
           (Pay.Submit (props [] false) (form.values (filled (VStr "bc1qxyz") (VNum 5))))
           (advanced 1 (VStr "bc1qxyz") (VNum 5))
           (advanced_reachable 1 (VStr "bc1qxyz") (VNum 5))).
Defined.

Lemma handleChange_inert_witness :
  Pay.reachable (advanced 1 (VStr "bc1qxyz") (VNum 5))
  /\ Pay.State.previousStep (Pay.state (advanced 1 (VStr "bc1qxyz") (VNum 5))) <> VNull
  /\ Pay.after
       (Pay.handleChange (props [] false) (filled (VStr "lnbc15u1sample") VUndefined))
       (Pay.run [Pay.Back; Pay.Input (filled (VStr "lnbc15u1sample") VUndefined)]
          (advanced 1 (VStr "bc1qxyz") (VNum 5)))
     = Pay.run [Pay.Back; Pay.Input (filled (VStr "lnbc15u1sample") VUndefined)]
         (advanced 1 (VStr "bc1qxyz") (VNum 5)).
Proof.
  split; [apply advanced_reachable|]. split; [vm_compute; discriminate|].
  apply (handleChange_inert (props [] false) (filled (VStr "lnbc15u1sample") VUndefined)
           [Pay.Back; Pay.Input (filled (VStr "lnbc15u1sample") VUndefined)]
           (advanced 1 (VStr "bc1qxyz") (VNum 5))
           (advanced_reachable 1 (VStr "bc1qxyz") (VNum 5))).
  vm_compute; discriminate.
Defined.

Lemma payment_only_on_summary_submit_witness :
  Pay.reachable (advanced 2 (VStr "bc1qxyz") (VNum 5))
  /\ exists l,
       List.filter Pay.is_payment (Pay.trace (advanced 3 (VStr "bc1qxyz") (VNum 5)))
       = List.filter Pay.is_payment (Pay.trace (advanced 2 (VStr "bc1qxyz") (VNum 5))) ++ l
       /\ (l = []
           \/ (exists p, l = [p])
              /\ Pay.State.currentStep (Pay.state (advanced 2 (VStr "bc1qxyz") (VNum 5)))
                 = VStr "summary").
Proof.
  split; [apply advanced_reachable|].
  destruct (payment_only_on_summary_submit
              (Pay.Submit (props [] false) (form.values (filled (VStr "bc1qxyz") (VNum 5))))
              (advanced 2 (VStr "bc1qxyz") (VNum 5))
              (advanced_reachable 2 (VStr "bc1qxyz") (VNum 5)))
    as (l & Hl & [-> | (? & ? & p & -> & _ & Hstep)]).
  - exists []. split; [exact Hl | now left].
  - exists [p]. split; [exact Hl|]. right. split; [now exists p | exact Hstep].
Defined.

Lemma queryRoutes_only_on_update_witness :
  Pay.reachable (advanced 2 (VStr "bc1qxyz") (VNum 5))
  /\ exists l,
       List.filter Pay.is_queryRoutes
         (Pay.trace
            (Pay.after
               (Pay.handle (Pay.DidUpdate (props [] false) (props [] false) Pay.initialState))
               (advanced 2 (VStr "bc1qxyz") (VNum 5))))
       = List.filter Pay.is_queryRoutes (Pay.trace (advanced 2 (VStr "bc1qxyz") (VNum 5)))
         ++ l
       /\ l = [].
Proof.
  split; [apply advanced_reachable|].
  destruct (queryRoutes_only_on_update
              (Pay.DidUpdate (props [] false) (props [] false) Pay.initialState)
              (advanced 2 (VStr "bc1qxyz") (VNum 5))
              (advanced_reachable 2 (VStr "bc1qxyz") (VNum 5)))
    as (l & Hl & [-> | (? & ? & ? & ? & _ & Hln & _)]).
  - exists []. now split.
  - vm_compute in Hln. discriminate.
Defined.

Lemma componentDidUpdate_onchain_witness :
  Pay.reachable (entered (VStr "bc1qxyz") (VNum 5))
  /\ ~ Pay.is_set (Pay.State.isOnchain Pay.initialState)
  /\ Pay.is_set (Pay.State.isOnchain (Pay.state (entered (VStr "bc1qxyz") (VNum 5))))
  /\ List.filter Pay.is_submitForm
       (Pay.trace
          (Pay.after (Pay.componentDidUpdate (props [] false) (props [] false) Pay.initialState)
             (entered (VStr "bc1qxyz") (VNum 5))))
     = [Pay.formApi_submitForm].
Proof.
  split; [apply entered_reachable|]. split; [vm_compute; discriminate|].
  split; [reflexivity|].
  apply (componentDidUpdate_onchain (props [] false) (props [] false) Pay.initialState
           (entered (VStr "bc1qxyz") (VNum 5))
           (entered_reachable (VStr "bc1qxyz") (VNum 5))).
  - vm_compute; discriminate.
  - reflexivity.
Defined.

Lemma componentDidUpdate_quiescent_witness :
  Pay.reachable (advanced 1 (VStr "bc1qxyz") (VNum 5))
  /\ JS.truthy (Pay.Props.initialPayReq (props [] false)) = false
  /\ Pay.after
       (Pay.componentDidUpdate (props [] false) (props [] false)
          (Pay.state (advanced 1 (VStr "bc1qxyz") (VNum 5))))
       (advanced 1 (VStr "bc1qxyz") (VNum 5))
     = advanced 1 (VStr "bc1qxyz") (VNum 5).
Proof.
  split; [apply advanced_reachable|]. split; [reflexivity|].
  apply (componentDidUpdate_quiescent (props [] false) (props [] false)
           (Pay.state (advanced 1 (VStr "bc1qxyz") (VNum 5)))
           (advanced 1 (VStr "bc1qxyz") (VNum 5))
           (advanced_reachable 1 (VStr "bc1qxyz") (VNum 5)));
    [left; reflexivity | reflexivity..].
Defined.

Lemma componentDidUpdate_untouches_witness :
  JS.truthy (Pay.Props.initialPayReq (props [] false))
  && JS.strict_neq (Pay.Props.initialPayReq (props [] false))
       (Pay.Props.initialPayReq (props [] false)) = false
  /\ List.filter Pay.is_setTouched
       (Pay.trace
          (Pay.after
             (Pay.componentDidUpdate (props [] false) (props [] false)
                (Pay.state (advanced 1 (VStr "bc1qxyz") (VNum 5))))
             (Pay.after Pay.previousStep (advanced 1 (VStr "bc1qxyz") (VNum 5)))))
     = [Pay.formApi_setTouched "payReq" false].
Proof.
  split; [reflexivity|].
  exact (componentDidUpdate_untouches (props [] false) (props [] false)
           (Pay.state (advanced 1 (VStr "bc1qxyz") (VNum 5)))
           (Pay.after Pay.previousStep (advanced 1 (VStr "bc1qxyz") (VNum 5)))
           eq_refl).
Defined.

Lemma navigation_adjacent_witness :
  Pay.adjacent (VStr "amount") (VStr "summary")
    (Pay.steps (Pay.state (advanced 1 (VStr "bc1qxyz") (VNum 5))))
  /\ Pay.State.currentStep (Pay.state (advanced 1 (VStr "bc1qxyz") (VNum 5)))
     = VStr "amount"
  /\ Pay.State.currentStep (Pay.state (advanced 2 (VStr "bc1qxyz") (VNum 5)))
     = VStr "summary"
  /\ Pay.State.previousStep (Pay.state (advanced 2 (VStr "bc1qxyz") (VNum 5)))
     = VStr "amount"
  /\ Pay.State.currentStep
       (Pay.state (Pay.after Pay.previousStep (advanced 2 (VStr "bc1qxyz") (VNum 5))))
     = VStr "amount".
Proof.
  assert (Hadj : Pay.adjacent (VStr "amount") (VStr "summary")
                   (Pay.steps (Pay.state (advanced 1 (VStr "bc1qxyz") (VNum 5))))).
  { exists [VStr "address"], []. reflexivity. }
  split; [exact Hadj|]. split; [reflexivity|].
  exact (proj1 (navigation_adjacent (advanced 1 (VStr "bc1qxyz") (VNum 5))
                  (VStr "amount") (VStr "summary") Hadj) eq_refl).
Defined.

Lemma step_outside_enabled_witness :
  Pay.reachable (retyped (advanced 1 (VStr "bc1qxyz") (VNum 5))
                   (VStr "lnbc15u1sample") VUndefined)
  /\ Pay.State.currentStep
       (Pay.state (retyped (advanced 1 (VStr "bc1qxyz") (VNum 5))
                     (VStr "lnbc15u1sample") VUndefined))
     = VStr "amount"
  /\ ~ In (VStr "amount")
         (Pay.steps
            (Pay.state (retyped (advanced 1 (VStr "bc1qxyz") (VNum 5))
                          (VStr "lnbc15u1sample") VUndefined)))
  /\ Pay.State.currentStep
       (Pay.state
          (Pay.after Pay.nextStep
             (retyped (advanced 1 (VStr "bc1qxyz") (VNum 5))
                (VStr "lnbc15u1sample") VUndefined)))
     = VStr "address".
Proof.
  assert (Hnot : ~ In (VStr "amount")
                     (Pay.steps
                        (Pay.state (retyped (advanced 1 (VStr "bc1qxyz") (VNum 5))
                                      (VStr "lnbc15u1sample") VUndefined)))).
  { intros [Hin | [Hin | []]]; discriminate Hin. }
  split; [apply retyped_reachable, advanced_reachable|].
  split; [reflexivity|]. split; [exact Hnot|].
  exact (proj1 (step_outside_enabled
                  (retyped (advanced 1 (VStr "bc1qxyz") (VNum 5))
                     (VStr "lnbc15u1sample") VUndefined)
                  "amount" eq_refl Hnot)).
Defined.

Lemma no_payment_before_classification_witness :
  Pay.reachable (advanced 3 (VStr "bc1qxyz") (VNum 5))
  /\ List.filter Pay.is_payment (Pay.trace (advanced 3 (VStr "bc1qxyz") (VNum 5)))
     = [Pay.sendCoins
          {| Pay.SendCoinsParams.value := VNum 5;
             Pay.SendCoinsParams.addr := VStr "bc1qxyz";
             Pay.SendCoinsParams.currency := "sats";
             Pay.SendCoinsParams.satPerByte := VNum 40 |}]
  /\ Pay.payments_guarded false (Pay.trace (advanced 3 (VStr "bc1qxyz") (VNum 5))) = true.
Proof.
  split; [apply advanced_reachable|]. split; [reflexivity|].
  exact (proj1 (no_payment_before_classification (advanced 3 (VStr "bc1qxyz") (VNum 5))
                  (advanced_reachable 3 (VStr "bc1qxyz") (VNum 5)))).
Defined.



Lemma summary_matches_header_witness :
  Pay.reachable (retyped (advanced 2 (VStr "bc1qxyz") (VNum 5)) (VStr "hello") VUndefined)
  /\ Pay.Props.routes (props [] false) <> None
  /\ Pay.State.currentStep
       (Pay.state (retyped (advanced 2 (VStr "bc1qxyz") (VNum 5)) (VStr "hello") VUndefined))
     = VStr "summary"
  /\ Pay.headerType
       (Pay.render (props [] false)
          (Pay.state (retyped (advanced 2 (VStr "bc1qxyz") (VNum 5)) (VStr "hello") VUndefined))
          (filled (VStr "hello") VUndefined)) = VNull
  /\ exists view,
       Pay.renderSummary (props [] false)
         (Pay.state (retyped (advanced 2 (VStr "bc1qxyz") (VNum 5)) (VStr "hello") VUndefined))
         (filled (VStr "hello") VUndefined) = Some view
       /\ Pay.summary_items view = true
       /\ exists minFee maxFee payReq querying,
            Pay.summary_content view
            = Pay.PaySummaryLightning minFee maxFee payReq querying.
Proof.
  split; [apply retyped_reachable, advanced_reachable|]. split; [discriminate|].
  split; [reflexivity|]. split; [reflexivity|].
  destruct (proj2 (summary_matches_header (props [] false)
                     (retyped (advanced 2 (VStr "bc1qxyz") (VNum 5)) (VStr "hello") VUndefined)
                     (filled (VStr "hello") VUndefined)
                     (retyped_reachable _ _ _ (advanced_reachable 2 (VStr "bc1qxyz") (VNum 5)))))
    as (view & Hview & Hitems & _ & Hlightning & _); [discriminate|].
  exists view. split; [exact Hview|]. split; [apply Hitems; reflexivity|].
  apply Hlightning. right. reflexivity.
Defined.

Lemma amount_fields_witness :
  Pay.reachable (advanced 1 (VStr "lnbc15u1sample") VUndefined)
  /\ Pay.is_set (Pay.State.isLn (Pay.state (advanced 1 (VStr "lnbc15u1sample") VUndefined)))
  /\ Pay.renderAmountFields (Pay.state (advanced 1 (VStr "lnbc15u1sample") VUndefined))
     = None.
Proof.
  split; [apply advanced_reachable|]. split; [reflexivity|].
  apply (amount_fields (advanced 1 (VStr "lnbc15u1sample") VUndefined)
           (advanced_reachable 1 (VStr "lnbc15u1sample") VUndefined)).
  reflexivity.
Defined.

Lemma help_text_witness :
  Pay.reachable (advanced 1 (VStr "bc1qxyz") (VNum 5))
  /\ Pay.State.previousStep (Pay.state (advanced 1 (VStr "bc1qxyz") (VNum 5))) <> VNull
  /\ exists items,
       Pay.renderHelpText (props [] false)
         (Pay.state (advanced 1 (VStr "bc1qxyz") (VNum 5))) = Some items.
Proof.
  split; [apply advanced_reachable|]. split; [vm_compute; discriminate|].
  destruct (proj2 (help_text (props [] false) (advanced 1 (VStr "bc1qxyz") (VNum 5))
                     (advanced_reachable 1 (VStr "bc1qxyz") (VNum 5))))
    as (items & Hitems & _); [vm_compute; discriminate|].
  now exists items.
Defined.

Lemma one_pane_witness :
  Pay.reachable (retyped (advanced 1 (VStr "bc1qxyz") (VNum 5))
                   (VStr "lnbc15u1sample") VUndefined)
  /\ Pay.Props.routes (props [] false) <> None
  /\ ~ (Pay.address_state
          (Pay.renderAddressField (props [] false)
             (Pay.state (retyped (advanced 1 (VStr "bc1qxyz") (VNum 5))
                           (VStr "lnbc15u1sample") VUndefined))) = "big"
        \/ (exists fields,
              Pay.renderAmountFields
                (Pay.state (retyped (advanced 1 (VStr "bc1qxyz") (VNum 5))
                              (VStr "lnbc15u1sample") VUndefined)) = Some fields
              /\ Pay.amount_state fields = "show")
        \/ (exists view,
              Pay.renderSummary (props [] false)
                (Pay.state (retyped (advanced 1 (VStr "bc1qxyz") (VNum 5))
                              (VStr "lnbc15u1sample") VUndefined))
                (filled (VStr "lnbc15u1sample") VUndefined) = Some view
              /\ Pay.summary_items view = true)).
Proof.
  split; [apply retyped_reachable, advanced_reachable|]. split; [discriminate|].
  intros Hpane.
  apply (proj1 (proj2 (proj2 (proj2 (proj2 (proj2 (proj2
           (one_pane (props [] false)
              (retyped (advanced 1 (VStr "bc1qxyz") (VNum 5))
                 (VStr "lnbc15u1sample") VUndefined)
              (filled (VStr "lnbc15u1sample") VUndefined)
              (retyped_reachable _ _ _ (advanced_reachable 1 (VStr "bc1qxyz") (VNum 5)))
              ltac:(discriminate)))))))) Hpane).
  split; [reflexivity | vm_compute; discriminate].
Defined.

(** *** Submitting off the summary step *)


